(** * Verification of the AI post-processing pipeline and the per-day
    document handlers of the journal application.

    Sources: [ai_client.py] (coaching cache, goal breakdown, backfill,
    evaluation cache) and [main.py] ([create_entry], [_normalize_steps],
    [coach_evaluate_entry]).  Characters are ASCII; Python's Unicode
    predicates are restricted to the ASCII range. *)

From Stdlib Require Import ZArith QArith Ascii String List Bool Sorted Permutation Lia.
From stdpp Require Import base gmap strings.
Import ListNotations.
Open Scope bool_scope.
Set Warnings "-register-all".

(* ================================================================== *)
(** ** Python string helpers *)
(* ================================================================== *)

Module Py.

(** [str.isspace] restricted to ASCII: \t \n \v \f \r, \x1c-\x1f and space.
    The same class is Python's [\s] in a [str] pattern. *)
Definition isspace (c : ascii) : bool :=
  let n := nat_of_ascii c in
  ((9 <=? n) && (n <=? 13)) || ((28 <=? n) && (n <=? 32)).

Definition isdigit (c : ascii) : bool :=
  let n := nat_of_ascii c in (48 <=? n) && (n <=? 57).

Definition islower (c : ascii) : bool :=
  let n := nat_of_ascii c in (97 <=? n) && (n <=? 122).

Definition isupper (c : ascii) : bool :=
  let n := nat_of_ascii c in (65 <=? n) && (n <=? 90).

(** [\w]: alphanumeric or underscore. *)
Definition isword (c : ascii) : bool :=
  isdigit c || islower c || isupper c || Ascii.eqb c "_"%char.

Definition lower_char (c : ascii) : ascii :=
  if isupper c then ascii_of_nat (nat_of_ascii c + 32) else c.

(** [str.lower()] *)
Definition lower (s : string) : string :=
  string_of_list_ascii (map lower_char (list_ascii_of_string s)).

Fixpoint lstrip_by (p : ascii -> bool) (l : list ascii) : list ascii :=
  match l with
  | [] => []
  | c :: l' => if p c then lstrip_by p l' else l
  end.

(** [str.strip(chars)] as a predicate on the stripped characters. *)
Definition strip_by (p : ascii -> bool) (s : string) : string :=
  string_of_list_ascii
    (rev (lstrip_by p (rev (lstrip_by p (list_ascii_of_string s))))).

(** [str.strip()] *)
Definition strip (s : string) : string := strip_by isspace s.

(** [s[:n]] *)
Definition take (n : nat) (s : string) : string := substring 0 n s.

(** [str(n)] for a natural number. *)
Fixpoint digits_rev (fuel n : nat) : list ascii :=
  match fuel with
  | O => []
  | S f =>
      let d := ascii_of_nat (48 + Nat.modulo n 10) in
      if n <? 10 then [d] else d :: digits_rev f (Nat.div n 10)
  end.

Definition str_nat (n : nat) : string :=
  string_of_list_ascii (rev (digits_rev (S n) n)).

(** [str(z)] for an integer. *)
Definition str_Z (z : Z) : string :=
  if (z <? 0)%Z then String "-" (str_nat (Z.to_nat (- z)))
  else str_nat (Z.to_nat z).

End Py.

(* ================================================================== *)
(** ** A backtracking matcher for the [re] patterns of the module *)
(* ================================================================== *)

Module Rx.

(** Regular expressions as they occur in [_is_meta_goal_step]: literal
    characters, character classes, a star over a class, [\b], sequence,
    alternation and [?]. *)
Inductive rx : Type :=
| RChr (c : ascii)
| RCls (p : ascii -> bool)
| RStar (p : ascii -> bool)
| RWb
| RSeq (r1 r2 : rx)
| RAlt (r1 r2 : rx)
| ROpt (r : rx).

Definition word_at (c : option ascii) : bool :=
  match c with Some x => Py.isword x | None => false end.

(** [p*]: every number of repetitions is tried (existence of a match does
    not depend on the order greedy matching tries them in). *)
Fixpoint star_match (p : ascii -> bool) (prev : option ascii) (s : list ascii)
    (k : option ascii -> list ascii -> bool) : bool :=
  match s with
  | [] => k prev s
  | x :: s' => (p x && star_match p (Some x) s' k) || k prev s
  end.

(** [rx_match r prev s k]: [r] matches a prefix of [s] (preceded by the
    character [prev]) and the continuation [k] accepts the rest. *)
Fixpoint rx_match (r : rx) (prev : option ascii) (s : list ascii)
    (k : option ascii -> list ascii -> bool) : bool :=
  match r with
  | RChr c =>
      match s with x :: s' => Ascii.eqb x c && k (Some x) s' | [] => false end
  | RCls p =>
      match s with x :: s' => p x && k (Some x) s' | [] => false end
  | RStar p => star_match p prev s k
  | RWb => xorb (word_at prev) (word_at (hd_error s)) && k prev s
  | RSeq r1 r2 => rx_match r1 prev s (fun p s' => rx_match r2 p s' k)
  | RAlt r1 r2 => rx_match r1 prev s k || rx_match r2 prev s k
  | ROpt r1 => rx_match r1 prev s k || k prev s
  end.

(** [re.search(r, s) is not None]: try every start position. *)
Fixpoint search_from (r : rx) (prev : option ascii) (s : list ascii) : bool :=
  rx_match r prev s (fun _ _ => true) ||
  match s with
  | [] => false
  | x :: s' => search_from r (Some x) s'
  end.

Definition search (r : rx) (s : string) : bool :=
  search_from r None (list_ascii_of_string s).

(** Literal string. *)
Fixpoint lit_l (l : list ascii) : rx :=
  match l with
  | [] => ROpt (RCls (fun _ => false))
  | [c] => RChr c
  | c :: l' => RSeq (RChr c) (lit_l l')
  end.

Definition lit (s : string) : rx := lit_l (list_ascii_of_string s).

Fixpoint seqs (l : list rx) : rx :=
  match l with
  | [] => ROpt (RCls (fun _ => false))
  | [r] => r
  | r :: l' => RSeq r (seqs l')
  end.

Fixpoint alts (l : list string) : rx :=
  match l with
  | [] => RCls (fun _ => false)
  | [s] => lit s
  | s :: l' => RAlt (lit s) (alts l')
  end.

Definition not_nl (c : ascii) : bool := negb (Ascii.eqb c "010"%char).

(** [\b<verb>\b[^\n]*\bgoals?\b] *)
Definition verb_goal (verb : rx) : rx :=
  seqs [RWb; verb; RWb; RStar not_nl; RWb; lit "goal"; ROpt (RChr "s"); RWb].

End Rx.

(* ================================================================== *)
(** ** [_is_meta_goal_step] and [_plan_json_pattern] *)
(* ================================================================== *)

Module Meta.
Import Rx.

(** The fourteen patterns, in the order of the source list. *)
Definition patterns : list rx :=
  [ verb_goal (RSeq (lit "set") (ROpt (lit "ting")));
    verb_goal (lit "define");
    verb_goal (lit "clarify");
    verb_goal (lit "refine");
    verb_goal (lit "establish");
    verb_goal (lit "determine");
    verb_goal (lit "articulate");
    verb_goal (lit "choose");
    verb_goal (lit "identify");
    seqs [RWb; lit "goal";
          ROpt (RCls (fun c => Ascii.eqb c "-"%char || Py.isspace c));
          lit "setting"; RWb];
    verb_goal (lit "smart");
    seqs [RWb; lit "set personal goals"; RWb];
    seqs [RWb; alts ["create"; "develop"; "build"; "draft"; "make";
                     "outline"; "design"];
          RWb; RStar not_nl; RWb; lit "action"; RStar Py.isspace;
          lit "plan"; RWb];
    seqs [RWb; lit "plan"; RCls Py.isspace; RStar Py.isspace; lit "your";
          RCls Py.isspace; RStar Py.isspace;
          alts ["approach"; "actions"; "steps"]; RWb] ].

(** [_is_meta_goal_step(lower_combo)] *)
Definition _is_meta_goal_step (lower_combo : string) : bool :=
  if String.eqb lower_combo EmptyString then false
  else existsb (fun pat => search pat lower_combo) patterns.

(** [_plan_json_pattern.search(text)]: the leftmost-greedy match of
    [\{[\s\S]*\}], i.e. from the first ['{'] to the last ['}'] after it. *)
Fixpoint upto_last_close (l : list ascii) : option (list ascii) :=
  match l with
  | [] => None
  | x :: l' =>
      match upto_last_close l' with
      | Some p => Some (x :: p)
      | None => if Ascii.eqb x "}"%char then Some [x] else None
      end
  end.

Fixpoint from_first_open (l : list ascii) : option (list ascii) :=
  match l with
  | [] => None
  | x :: l' => if Ascii.eqb x "{"%char then Some l else from_first_open l'
  end.

Definition plan_json_search (text : string) : option string :=
  match from_first_open (list_ascii_of_string text) with
  | None => None
  | Some l => option_map string_of_list_ascii (upto_last_close l)
  end.

End Meta.

(* ================================================================== *)
(** ** JSON values and [json.loads] *)
(* ================================================================== *)

Module Json.

(** Values [json.loads] returns.  A float is a rational, [None] standing
    for NaN and the infinities (which [json.loads] accepts). *)
Inductive json : Type :=
| JNull
| JBool (b : bool)
| JNum (z : Z)
| JFloat (f : option Q)
| JStr (s : string)
| JArr (l : list json)
| JObj (kv : list (string * json)).

(** [d.get(k)] on a dict decoded from text: a repeated key keeps its last
    value. *)
Fixpoint get (kv : list (string * json)) (k : string) : option json :=
  match kv with
  | [] => None
  | (k', v) :: kv' =>
      match get kv' k with
      | Some w => Some w
      | None => if String.eqb k' k then Some v else None
      end
  end.

(** Python truth value. *)
Definition truthy (j : json) : bool :=
  match j with
  | JNull => false
  | JBool b => b
  | JNum z => negb (Z.eqb z 0)
  | JFloat (Some q) => negb (Qeq_bool q 0)
  | JFloat None => true
  | JStr s => negb (String.eqb s EmptyString)
  | JArr l => negb (Nat.eqb (length l) 0)
  | JObj kv => negb (Nat.eqb (length kv) 0)
  end.

(** *** A decoder for the JSON texts used in the concrete runs below.

    [loads_subset] agrees with [json.loads] on texts without fractions,
    exponents, NaN/Infinity or [\u] escapes, and returns [None] on those
    (where [json.loads] would decode them).  The theorems never rely on
    it: they hold for every decoder. *)

Definition is_ws (c : ascii) : bool :=
  Ascii.eqb c " "%char || Ascii.eqb c "009"%char ||
  Ascii.eqb c "010"%char || Ascii.eqb c "013"%char.

Definition skip_ws (l : list ascii) : list ascii := Py.lstrip_by is_ws l.

Fixpoint pstring (l : list ascii) (acc : list ascii) : option (string * list ascii) :=
  match l with
  | [] => None
  | c :: r =>
      if Ascii.eqb c "034"%char then Some (string_of_list_ascii (rev acc), r)
      else if Ascii.eqb c "\"%char then
        match r with
        | e :: r' =>
            let out :=
              if Ascii.eqb e "034"%char then Some "034"%char
              else if Ascii.eqb e "\"%char then Some "\"%char
              else if Ascii.eqb e "/"%char then Some "/"%char
              else if Ascii.eqb e "n"%char then Some "010"%char
              else if Ascii.eqb e "t"%char then Some "009"%char
              else if Ascii.eqb e "r"%char then Some "013"%char
              else if Ascii.eqb e "b"%char then Some "008"%char
              else if Ascii.eqb e "f"%char then Some "012"%char
              else None in
            match out with Some o => pstring r' (o :: acc) | None => None end
        | [] => None
        end
      else if nat_of_ascii c <? 32 then None
      else pstring r (c :: acc)
  end.

Fixpoint pdigits (l : list ascii) (acc : Z) : Z * list ascii :=
  match l with
  | c :: r =>
      if Py.isdigit c then pdigits r (acc * 10 + Z.of_nat (nat_of_ascii c - 48))%Z
      else (acc, l)
  | [] => (acc, l)
  end.

Definition pnumber (l : list ascii) : option (json * list ascii) :=
  let '(neg, l) := match l with
                   | "-"%char :: r => (true, r)
                   | _ => (false, l)
                   end in
  let sgn z := if neg then (- z)%Z else z in
  match l with
  | "0"%char :: r =>
      match r with
      | c :: _ => if Ascii.eqb c "."%char || Ascii.eqb c "e"%char || Ascii.eqb c "E"%char
                  then None else Some (JNum 0, r)
      | [] => Some (JNum 0, r)
      end
  | c :: _ =>
      if Py.isdigit c then
        let '(z, r) := pdigits l 0 in
        match r with
        | d :: _ => if Ascii.eqb d "."%char || Ascii.eqb d "e"%char || Ascii.eqb d "E"%char
                    then None else Some (JNum (sgn z), r)
        | [] => Some (JNum (sgn z), r)
        end
      else None
  | [] => None
  end.

Fixpoint pvalue (fuel : nat) (l : list ascii) : option (json * list ascii) :=
  match fuel with
  | O => None
  | S f =>
      match skip_ws l with
      | "{"%char :: r =>
          match skip_ws r with
          | "}"%char :: r' => Some (JObj [], r')
          | r' => option_map (fun '(kv, rest) => (JObj kv, rest)) (pmembers f r' [])
          end
      | "["%char :: r =>
          match skip_ws r with
          | "]"%char :: r' => Some (JArr [], r')
          | r' => option_map (fun '(l, rest) => (JArr l, rest)) (pelems f r' [])
          end
      | "034"%char :: r => option_map (fun '(s, rest) => (JStr s, rest)) (pstring r [])
      | "t"%char :: "r"%char :: "u"%char :: "e"%char :: r => Some (JBool true, r)
      | "f"%char :: "a"%char :: "l"%char :: "s"%char :: "e"%char :: r => Some (JBool false, r)
      | "n"%char :: "u"%char :: "l"%char :: "l"%char :: r => Some (JNull, r)
      | r => pnumber r
      end
  end
with pelems (fuel : nat) (l : list ascii) (acc : list json) : option (list json * list ascii) :=
  match fuel with
  | O => None
  | S f =>
      match pvalue f l with
      | Some (v, r) =>
          match skip_ws r with
          | ","%char :: r' => pelems f r' (acc ++ [v])
          | "]"%char :: r' => Some (acc ++ [v], r')
          | _ => None
          end
      | None => None
      end
  end
with pmembers (fuel : nat) (l : list ascii) (acc : list (string * json))
    : option (list (string * json) * list ascii) :=
  match fuel with
  | O => None
  | S f =>
      match skip_ws l with
      | "034"%char :: r =>
          match pstring r [] with
          | Some (k, r1) =>
              match skip_ws r1 with
              | ":"%char :: r2 =>
                  match pvalue f r2 with
                  | Some (v, r3) =>
                      match skip_ws r3 with
                      | ","%char :: r4 => pmembers f r4 (acc ++ [(k, v)])
                      | "}"%char :: r4 => Some (acc ++ [(k, v)], r4)
                      | _ => None
                      end
                  | None => None
                  end
              | _ => None
              end
          | None => None
          end
      | _ => None
      end
  end.

Definition loads_subset (s : string) : option json :=
  let l := list_ascii_of_string s in
  match pvalue (S (length l)) l with
  | Some (v, r) => match skip_ws r with [] => Some v | _ => None end
  | None => None
  end.

End Json.

(* ================================================================== *)
(** ** [list.sort(key=...)] on integer keys *)
(* ================================================================== *)

Module KeySort.
Section Key.
Context {A : Type} (key : A -> Z).

(** Insertion in front of the first element whose key is not smaller:
    inserting the elements right to left keeps equal keys in their
    original order, as the stable [list.sort] does. *)
Fixpoint insert_by (x : A) (l : list A) : list A :=
  match l with
  | [] => [x]
  | y :: l' => if (key x <=? key y)%Z then x :: l else y :: insert_by x l'
  end.

Fixpoint sort_by (l : list A) : list A :=
  match l with
  | [] => []
  | x :: l' => insert_by x (sort_by l')
  end.

End Key.
End KeySort.

(* ================================================================== *)
(** ** Exceptions, model calls and the AI client state *)
(* ================================================================== *)

Module AI.
Import Json.

(** Exceptions the coercions can raise. *)
Inductive exn : Type := AttributeError | TypeError | ValueError | JSONDecodeError.

Inductive res (A : Type) : Type :=
| Ok (a : A)
| Raise (e : exn).
Arguments Ok {A} a.
Arguments Raise {A} e.

Definition bind {A B} (m : res A) (k : A -> res B) : res B :=
  match m with Ok a => k a | Raise e => Raise e end.

Notation "'let*' x := m 'in' k" := (bind m (fun x => k))
  (at level 200, x name, m at level 100, k at level 200).

(** [try: m  except Exception: handler] *)
Definition catch {A} (m : res A) (handler : A) : A :=
  match m with Ok a => a | Raise _ => handler end.

(** A plan step as [get_goal_breakdown] builds it. *)
Record step : Type := mk_step {
  s_id : string;
  s_title : string;
  s_description : string;
  s_expected_outcome : string;
  s_order : Z
}.

(** A request to [_call_groq], by the arguments its prompt is built from. *)
Inductive call : Type :=
| CallPlan (goal_stripped : string) (max_tokens : Z)
| CallBackfill (goal : string) (existing_titles : list string)
               (start_order : Z) (count : Z)
| CallCoach (goal_part entries_excerpt : string) (max_tokens : Z)
| CallEval (goal_part date_str journal excerpt : string).

(** Module state: [_cache] (key -> (expires_at, value)) and the log of the
    model calls made so far. *)
Record ai_state : Type := mk_ai {
  cache : gmap string (Z * string);
  calls : list call
}.

(** *** Coercions of one model step *)

(** [(d.get(k) or "").strip()] *)
Definition str_or_empty (v : option json) : res string :=
  match v with
  | Some j =>
      if truthy j then
        match j with JStr s => Ok (Py.strip s) | _ => Raise AttributeError end
      else Ok EmptyString
  | None => Ok EmptyString
  end.

(** [x or fallback] where [.lower()] is then called on the result. *)
Definition str_or (v : option json) (fallback : string) : res string :=
  match v with
  | Some j =>
      if truthy j then
        match j with JStr s => Ok s | _ => Raise AttributeError end
      else Ok fallback
  | None => Ok fallback
  end.

(** [int(s)] for a string: surrounding whitespace, a sign, digits with
    single underscores between them. *)
Fixpoint int_digits (l : list ascii) (acc : Z) : option Z :=
  match l with
  | [] => Some acc
  | c :: r =>
      if Py.isdigit c then int_digits r (acc * 10 + Z.of_nat (nat_of_ascii c - 48))%Z
      else if Ascii.eqb c "_"%char then
        match r with
        | d :: r' =>
            if Py.isdigit d
            then int_digits r' (acc * 10 + Z.of_nat (nat_of_ascii d - 48))%Z
            else None
        | [] => None
        end
      else None
  end.

Definition int_of_string (s : string) : option Z :=
  let l := list_ascii_of_string (Py.strip s) in
  let '(neg, ds) := match l with
                    | "-"%char :: r => (true, r)
                    | "+"%char :: r => (false, r)
                    | _ => (false, l)
                    end in
  match ds with
  | d :: _ =>
      if Py.isdigit d then
        option_map (fun z => if neg then (- z)%Z else z) (int_digits ds 0)
      else None
  | [] => None
  end.

(** [int(x)] *)
Definition py_int (j : json) : res Z :=
  match j with
  | JNum z => Ok z
  | JBool b => Ok (if b then 1%Z else 0%Z)
  | JFloat (Some q) => Ok (Z.quot (Qnum q) (Zpos (Qden q)))
  | JFloat None => Raise ValueError
  | JStr s => match int_of_string s with Some z => Ok z | None => Raise ValueError end
  | _ => Raise TypeError
  end.

(** [int(d.get(k) or default)] *)
Definition int_or (v : option json) (dflt : Z) : res Z :=
  match v with
  | Some j => if truthy j then py_int j else Ok dflt
  | None => Ok dflt
  end.

Definition id_char (c : ascii) : bool :=
  Py.islower c || Py.isdigit c || Ascii.eqb c "-"%char.

(** [re.sub(r"[^a-z0-9-]", "-", s.lower()).strip("-")[:48]] *)
Definition clean_id (s : string) : string :=
  Py.take 48
    (Py.strip_by (fun c => Ascii.eqb c "-"%char)
       (string_of_list_ascii
          (map (fun c => if id_char c then c else "-"%char)
               (list_ascii_of_string (Py.lower s))))).

Definition step_label (n : nat) : string := ("step-" ++ Py.str_nat n)%string.

(** [f"{title} {desc}".lower()] *)
Definition combo (title desc : string) : string :=
  Py.lower (title ++ " " ++ desc)%string.

(** One iteration of the loop over [raw_steps] in [get_goal_breakdown]:
    [Ok None] is a [continue]. *)
Definition coerce_first (idx : nat) (st : json) : res (option step) :=
  match st with
  | JObj kv =>
      let* title := str_or_empty (get kv "title") in
      let* desc := str_or_empty (get kv "description") in
      if Meta._is_meta_goal_step (combo title desc) then Ok None else
      let* sid0 := str_or (get kv "id")
                     (if String.eqb title EmptyString then step_label idx else title) in
      let sid1 := clean_id sid0 in
      let sid := if String.eqb sid1 EmptyString then step_label idx else sid1 in
      let* eo := str_or_empty (get kv "expected_outcome") in
      let* ord := int_or (get kv "order") (Z.of_nat idx) in
      let t80 := Py.take 80 title in
      Ok (Some {| s_id := sid;
                  s_title := if String.eqb t80 EmptyString then sid else t80;
                  s_description := Py.take 220 desc;
                  s_expected_outcome := Py.take 160 eo;
                  s_order := ord |})
  | _ => Ok None
  end.

(** [for idx, step in enumerate(raw_steps, start=1)] *)
Fixpoint coerce_all (l : list json) (idx : nat) : res (list step) :=
  match l with
  | [] => Ok []
  | j :: r =>
      let* o := coerce_first idx j in
      let* rest := coerce_all r (S idx) in
      Ok (match o with Some s => s :: rest | None => rest end)
  end.

(** [_plan_json_pattern] extraction followed by [json.loads]. *)
Definition extract_text (raw : string) : string :=
  let text := Py.strip raw in
  match Meta.plan_json_search text with Some m => m | None => text end.

(** [data.get("steps")] when [data] is a dict and the value a list. *)
Definition steps_list (data : json) : option (list json) :=
  match data with
  | JObj kv => match get kv "steps" with Some (JArr l) => Some l | _ => None end
  | _ => None
  end.

(** [steps.sort(key=lambda s: s.get("order", 0))] *)
Definition sort_by_order (l : list step) : list step := KeySort.sort_by s_order l.

(** [for i, s in enumerate(steps, start=1): s["order"] = i] *)
Fixpoint renumber (i : Z) (l : list step) : list step :=
  match l with
  | [] => []
  | s :: l' => {| s_id := s_id s; s_title := s_title s; s_description := s_description s;
                  s_expected_outcome := s_expected_outcome s; s_order := i |}
               :: renumber (i + 1)%Z l'
  end.

(** The backfill loop body for one raw step [st]; [Ok None] is a
    [continue]. *)
Definition backfill_one (st : json) (steps : list step) : res (option step) :=
  let* kv := match st with JObj kv => Ok kv | _ => Raise AttributeError end in
  let* title := str_or_empty (get kv "title") in
  let* desc := str_or_empty (get kv "description") in
  if String.eqb title EmptyString then Ok None else
  if Meta._is_meta_goal_step (combo title desc) then Ok None else
  if existsb (fun x => String.eqb (Py.lower title) (Py.lower (s_title x))) steps
  then Ok None else
  let* idv := str_or (get kv "id") title in
  let sid1 := clean_id idv in
  let sid := if String.eqb sid1 EmptyString then step_label (S (length steps)) else sid1 in
  let* eo := str_or_empty (get kv "expected_outcome") in
  let* ord := int_or (get kv "order") (Z.of_nat (S (length steps))) in
  Ok (Some {| s_id := sid; s_title := Py.take 80 title;
              s_description := Py.take 220 desc;
              s_expected_outcome := Py.take 160 eo; s_order := ord |}).

(** [for st in backfill: ...] inside [try/except: pass]: an exception
    leaves the steps appended so far. *)
Fixpoint backfill_loop (bf : list json) (steps : list step) : list step :=
  match bf with
  | [] => steps
  | st :: rest =>
      match backfill_one st steps with
      | Raise _ => steps
      | Ok None => backfill_loop rest steps
      | Ok (Some s) => backfill_loop rest (steps ++ [s])
      end
  end.

Section Client.

(** [json.loads]: [None] is a [JSONDecodeError]. *)
Variable json_loads : string -> option json.
(** The model: the answer to the [n]-th request. *)
Variable respond : nat -> call -> string.

Definition call_model (c : call) (st : ai_state) : string * ai_state :=
  (respond (length (calls st)) c, {| cache := cache st; calls := calls st ++ [c] |}).

(** The [try] block parsing the first response. *)
Definition first_pass (raw : string) : res (list step) :=
  match json_loads (extract_text raw) with
  | None => Raise JSONDecodeError
  | Some data =>
      match steps_list data with
      | Some l => coerce_all l 1
      | None => Ok []
      end
  end.

(** [_generate_concrete_steps]'s parsing of the model answer. *)
Definition concrete_steps (raw : string) : list json :=
  match json_loads (extract_text raw) with
  | Some data => match steps_list data with Some l => l | None => [] end
  | None => []
  end.

(** [_generate_concrete_steps(goal, existing_titles, start_order, count)] *)
Definition _generate_concrete_steps (goal : string) (existing_titles : list string)
    (start_order count : Z) (st : ai_state) : list json * ai_state :=
  let '(raw, st') := call_model
      (CallBackfill goal (map Py.strip existing_titles) start_order count) st in
  (concrete_steps raw, st').

(** The steps of [get_goal_breakdown] before [steps = steps[:8]]. *)
Definition breakdown_steps (goal : string) (max_tokens : Z) (st : ai_state)
    : list step * ai_state :=
  if String.eqb (Py.strip goal) EmptyString then ([], st) else
  let '(raw, st1) := call_model (CallPlan (Py.strip goal) max_tokens) st in
  let steps := sort_by_order (catch (first_pass raw) []) in
  if (length steps <? 8)%nat then
    let n := Z.of_nat (length steps) in
    let '(bf, st2) := _generate_concrete_steps goal (map s_title steps)
                        (n + 1) (8 - n) st1 in
    (backfill_loop bf steps, st2)
  else (steps, st1).

(** [get_goal_breakdown(goal, max_tokens)]; an exception escaping it
    would be a [Raise]. *)
Definition get_goal_breakdown (goal : string) (max_tokens : Z) (st : ai_state)
    : res (list step) * ai_state :=
  if String.eqb (Py.strip goal) EmptyString then (Ok [], st) else
  let '(steps, st2) := breakdown_steps goal max_tokens st in
  (Ok (renumber 1 (firstn 8 steps)), st2).

(** *** The TTL cache *)

(** [hashlib.sha256(...).hexdigest()] *)
Variable sha256_hex : string -> string.
(** [CACHE_TTL_SECONDS] *)
Variable CACHE_TTL_SECONDS : Z.

Record CoachingContext : Type := mk_ctx {
  goal : option string;
  recent_entries : string;
  journal_name : option string;
  max_tokens : Z
}.

Definition or_empty (o : option string) : string :=
  match o with Some g => g | None => EmptyString end.

(** [CoachingContext.cache_key]: the four [update]s hash the
    concatenation of their bytes. *)
Definition cache_key (ctx : CoachingContext) : string :=
  sha256_hex (or_empty (goal ctx) ++ recent_entries ctx ++
              or_empty (journal_name ctx) ++ Py.str_Z (max_tokens ctx))%string.

(** [x.strip() if x else placeholder] *)
Definition stripped_or (o : option string) (placeholder : string) : string :=
  match o with
  | Some g => if String.eqb g EmptyString then placeholder else Py.strip g
  | None => placeholder
  end.

(** [x.strip() or placeholder] *)
Definition strip_or (x placeholder : string) : string :=
  let y := Py.strip x in if String.eqb y EmptyString then placeholder else y.

Definition cache_store (key : string) (entry : Z * string) (st : ai_state) : ai_state :=
  {| cache := <[key := entry]> (cache st); calls := calls st |}.

(** [cached and cached[0] > now] *)
Definition cache_hit (st : ai_state) (key : string) (now : Z) : option string :=
  match cache st !! key with
  | Some (expires_at, v) => if (now <? expires_at)%Z then Some v else None
  | None => None
  end.

(** [get_coaching_suggestion(context)] at wall-clock time [now]. *)
Definition get_coaching_suggestion (ctx : CoachingContext) (now : Z) (st : ai_state)
    : string * ai_state :=
  let key := cache_key ctx in
  match cache_hit st key now with
  | Some v => (v, st)
  | None =>
      let goal_part := stripped_or (goal ctx) "(No explicit goal provided)" in
      let entries_excerpt := strip_or (recent_entries ctx) "(No recent entries)" in
      let '(suggestion, st1) :=
        call_model (CallCoach goal_part entries_excerpt (max_tokens ctx)) st in
      (suggestion, cache_store key ((now + CACHE_TTL_SECONDS)%Z, suggestion) st1)
  end.

(** [get_coaching_suggestion] cut at its [await _call_groq(...)], so that
    calls can overlap: the part before the await reads the cache at [now]
    and either returns the cached value or leaves the call waiting with
    its key, its [now] and its request. *)
Definition suggest_begin (ctx : CoachingContext) (now : Z) (st : ai_state)
    : string + (string * Z * call) :=
  let key := cache_key ctx in
  match cache_hit st key now with
  | Some v => inl v
  | None =>
      let goal_part := stripped_or (goal ctx) "(No explicit goal provided)" in
      let entries_excerpt := strip_or (recent_entries ctx) "(No recent entries)" in
      inr (key, now, CallCoach goal_part entries_excerpt (max_tokens ctx))
  end.

(** The part after the await: the model's answer is stored under the key
    until the waiting call's [now + CACHE_TTL_SECONDS]. *)
Definition suggest_finish (p : string * Z * call) (st : ai_state) : string * ai_state :=
  let '(key, now, c) := p in
  let '(suggestion, st1) := call_model c st in
  (suggestion, cache_store key ((now + CACHE_TTL_SECONDS)%Z, suggestion) st1).

(** [get_entry_evaluation(goal, entry_text, journal_name, date_str)] at
    time [now]. *)
Definition get_entry_evaluation (g : option string) (entry_text : string)
    (jname : option string) (date_str : string) (now : Z) (st : ai_state)
    : string * ai_state :=
  let goal_part := stripped_or g "(No explicit goal)" in
  let excerpt := strip_or entry_text "(No content recorded)" in
  let key := ("eval:" ++ sha256_hex (goal_part ++ excerpt ++ date_str))%string in
  match cache_hit st key now with
  | Some v => (v, st)
  | None =>
      let jn := match jname with
                | Some n => if String.eqb n EmptyString then "Journal" else n
                | None => "Journal"
                end in
      let '(result, st1) := call_model (CallEval goal_part date_str jn excerpt) st in
      (result, cache_store key ((now + CACHE_TTL_SECONDS)%Z, result) st1)
  end.

(** The operations of the client, each with the time it reads. *)
Inductive ai_op : Type :=
| OpSuggest (ctx : CoachingContext) (now : Z)
| OpBreakdown (g : string) (mt : Z)
| OpEvaluate (g : option string) (entry_text : string) (jname : option string)
             (date_str : string) (now : Z).

Definition run_op (op : ai_op) (st : ai_state) : ai_state :=
  match op with
  | OpSuggest ctx now => snd (get_coaching_suggestion ctx now st)
  | OpBreakdown g mt => snd (get_goal_breakdown g mt st)
  | OpEvaluate g e jn d now => snd (get_entry_evaluation g e jn d now st)
  end.

(** The operations one after the other, each run to its end (model call
    included) before the next begins. *)
Definition run_ops (ops : list ai_op) (st : ai_state) : ai_state :=
  fold_left (fun st op => run_op op st) ops st.

(** The time an operation reads ([get_goal_breakdown] reads none). *)
Definition op_time (op : ai_op) : option Z :=
  match op with
  | OpSuggest _ now => Some now
  | OpBreakdown _ _ => None
  | OpEvaluate _ _ _ _ now => Some now
  end.

End Client.
End AI.

(* ================================================================== *)
(** ** [_normalize_steps] (main.py) *)
(* ================================================================== *)

Module Norm.
Import Json.

(** A Python dict with distinct keys, in insertion order. *)
Definition dict : Type := list (string * json).

Definition has_key (kv : dict) (k : string) : bool :=
  existsb (fun '(k', _) => String.eqb k' k) kv.

(** [d[k] = v]: an existing key keeps its position. *)
Definition dict_set (kv : dict) (k : string) (v : json) : dict :=
  if has_key kv k
  then map (fun '(k', w) => if String.eqb k' k then (k', v) else (k', w)) kv
  else kv ++ [(k, v)].

(** [s.get('order', 0)] *)
Definition order_key (kv : dict) : json :=
  match get kv "order" with Some j => j | None => JNum 0 end.

(** Integer sort keys ([bool] is a subclass of [int]). *)
Definition int_key (j : json) : option Z :=
  match j with
  | JNum z => Some z
  | JBool b => Some (if b then 1%Z else 0%Z)
  | _ => None
  end.

Definition key_z (kv : dict) : Z :=
  match int_key (order_key kv) with Some z => z | None => 0%Z end.

Definition int_keyed (kv : dict) : bool :=
  match int_key (order_key kv) with Some _ => true | None => false end.

(** [[s for s in steps if isinstance(s, dict)]] *)
Fixpoint dicts (l : list json) : list dict :=
  match l with
  | [] => []
  | JObj kv :: r => kv :: dicts r
  | _ :: r => dicts r
  end.

(** [for i, s in enumerate(steps, start=1)]: set [order], default
    [completed] to [False]. *)
Fixpoint renumber_dicts (i : Z) (ds : list dict) : list dict :=
  match ds with
  | [] => []
  | kv :: r =>
      let kv1 := dict_set kv "order" (JNum i) in
      let kv2 := if has_key kv1 "completed" then kv1 else kv1 ++ [("completed", JBool false)] in
      kv2 :: renumber_dicts (i + 1)%Z r
  end.

Section Normalize.

(** What [steps.sort(...)] leaves behind when the keys are not all
    integers: it sorts keys of other comparable types, and when a
    comparison raises, the [except: pass] keeps a list the sort may have
    partly rearranged.  The model leaves that list unspecified. *)
Variable sort_other : list dict -> list dict.

(** The list after [steps.sort(...)] and before trimming. *)
Definition normalize_sorted (steps : json) : list dict :=
  let l := match steps with JArr l => l | _ => [] end in
  let ds := dicts l in
  if forallb int_keyed ds then KeySort.sort_by key_z ds else sort_other ds.

(** [_normalize_steps(steps)] *)
Definition _normalize_steps (steps : json) : list dict :=
  renumber_dicts 1 (firstn 8 (normalize_sorted steps)).

End Normalize.
End Norm.

(* ================================================================== *)
(** ** [create_entry], [update_entry], [delete_entry] (main.py) *)
(* ================================================================== *)

Module Entries.

(** A document of [entries_collection]. *)
Record entry_doc : Type := mk_entry {
  e_id : nat;
  e_journal : string;
  e_user : string;
  e_date : string;
  e_text : string
}.

Record entries_db : Type := mk_db {
  docs : list entry_doc;
  next_id : nat
}.

Definition day_key (e : entry_doc) : string * string * string :=
  (e_journal e, e_user e, e_date e).

(** At most one document per [(journal_id, user_id, date)]. *)
Definition one_per_day (db : entries_db) : Prop := List.NoDup (map day_key (docs db)).

Definition matches (j u d : string) (e : entry_doc) : bool :=
  String.eqb (e_journal e) j && String.eqb (e_user e) u && String.eqb (e_date e) d.

(** [entries_collection.find_one({...})] *)
Definition find_entry (db : entries_db) (j u d : string) : option entry_doc :=
  find (matches j u d) (docs db).

(** The body of a [POST /api/journal/{journal_id}/entries] request that
    passed the authentication and journal checks (which write nothing).
    [None] for a missing or empty [date] or [time].  The record covers
    bodies whose [text], [date] and [time] are strings (or missing); a
    [date] of another JSON type, such as a dict that [find_one] reads as
    a query operator, is outside it. *)
Record create_req : Type := mk_req {
  cr_journal : string;
  cr_user : string;
  cr_text : string;
  cr_date : option string;
  cr_time : option string
}.

(** A request that has run up to [await entries_collection.find_one]. *)
Record pending : Type := mk_pending {
  p_journal : string;
  p_user : string;
  p_date : string;
  p_line : string;
  p_existing : option entry_doc
}.

(** [create_entry] up to and including the [find_one]; [None] is the
    HTTP 400 for an empty text. *)
Definition create_lookup (db : entries_db) (r : create_req)
    (server_date server_time : string) : option pending :=
  let text := Py.strip (cr_text r) in
  if String.eqb text EmptyString then None else
  let date := match cr_date r with Some d => d | None => server_date end in
  let time_str := match cr_time r with Some t => t | None => server_time end in
  let line := ("[" ++ time_str ++ "] " ++ text)%string in
  Some {| p_journal := cr_journal r; p_user := cr_user r; p_date := date;
          p_line := line;
          p_existing := find_entry db (cr_journal r) (cr_user r) date |}.

(** [update_one({"_id": id}, {"$set": {"text": t}})] *)
Definition set_text (db : entries_db) (id : nat) (t : string) : entries_db :=
  {| docs := map (fun e => if Nat.eqb (e_id e) id
                           then {| e_id := e_id e; e_journal := e_journal e;
                                   e_user := e_user e; e_date := e_date e;
                                   e_text := t |}
                           else e) (docs db);
     next_id := next_id db |}.

(** [create_entry] after the [find_one]: append to the document found
    then, or insert a new one. *)
Definition create_write (db : entries_db) (p : pending) : entries_db :=
  match p_existing p with
  | Some e =>
      let new_text := if String.eqb (e_text e) EmptyString then p_line p
                      else (e_text e ++ String "010" (p_line p))%string in
      set_text db (e_id e) new_text
  | None =>
      {| docs := docs db ++ [{| e_id := next_id db; e_journal := p_journal p;
                                e_user := p_user p; e_date := p_date p;
                                e_text := p_line p |}];
         next_id := S (next_id db) |}
  end.

(** [create_entry] run on its own. *)
Definition create_entry (db : entries_db) (r : create_req) (sd stime : string)
    : entries_db :=
  match create_lookup db r sd stime with
  | Some p => create_write db p
  | None => db
  end.

(** [update_entry(entry_id, {"text": text})] for [user_id]. *)
Definition update_entry (db : entries_db) (id : nat) (user text : string) : entries_db :=
  let t := Py.strip text in
  if String.eqb t EmptyString then db else
  {| docs := map (fun e => if Nat.eqb (e_id e) id && String.eqb (e_user e) user
                           then {| e_id := e_id e; e_journal := e_journal e;
                                   e_user := e_user e; e_date := e_date e;
                                   e_text := t |}
                           else e) (docs db);
     next_id := next_id db |}.

(** [delete_one({"_id": id, "user_id": user})]: the first match. *)
Fixpoint delete_first (id : nat) (user : string) (l : list entry_doc) : list entry_doc :=
  match l with
  | [] => []
  | e :: r => if Nat.eqb (e_id e) id && String.eqb (e_user e) user then r
              else e :: delete_first id user r
  end.

Definition delete_entry (db : entries_db) (id : nat) (user : string) : entries_db :=
  {| docs := delete_first id user (docs db); next_id := next_id db |}.

(** The server: the database and the [create_entry] requests suspended at
    an [await] after their [find_one].  FastAPI runs the [async] handlers
    concurrently on one event loop, so any request may run in between. *)
Record server : Type := mk_server {
  db : entries_db;
  in_flight : list pending
}.

Inductive server_step : server -> server -> Prop :=
| step_lookup s r sd stime p :
    create_lookup (db s) r sd stime = Some p ->
    server_step s {| db := db s; in_flight := in_flight s ++ [p] |}
| step_write s pre p post :
    in_flight s = pre ++ p :: post ->
    server_step s {| db := create_write (db s) p; in_flight := pre ++ post |}
| step_update s id user text :
    server_step s {| db := update_entry (db s) id user text; in_flight := in_flight s |}
| step_delete s id user :
    server_step s {| db := delete_entry (db s) id user; in_flight := in_flight s |}.

End Entries.

(* ================================================================== *)
(** ** [coach_evaluate_entry] (main.py) *)
(* ================================================================== *)

Module Evals.
Import Entries.

(** A document of [evaluations_collection]. *)
Record eval_doc : Type := mk_eval {
  v_journal : string;
  v_user : string;
  v_date : string;
  v_text : string
}.

Definition of_pair (j u : string) (d : eval_doc) : bool :=
  String.eqb (v_journal d) j && String.eqb (v_user d) u.

(** At most one evaluation document per [(journal_id, user_id)]. *)
Definition one_per_journal (evs : list eval_doc) : Prop :=
  forall j u, length (List.filter (of_pair j u) evs) <= 1.

(** The journal document fields the handler reads. *)
Record journal : Type := mk_journal {
  jr_goal : option string;
  jr_name : option string
}.

(** Today's UTC date in the three forms the handler builds. *)
Record today : Type := mk_today {
  iso_today : string;
  padded : string;
  unpadded : string
}.

(** A request suspended at [await get_entry_evaluation(...)]. *)
Record pending_eval : Type := mk_pe {
  pe_journal : string;
  pe_user : string;
  pe_date : string;
  pe_entry_text : string
}.

Inductive lookup_result : Type :=
| Cached (text : string)      (* today's evaluation was found *)
| NoEntry                     (* HTTP 400: nothing to evaluate *)
| Evaluate (p : pending_eval).

(** [coach_evaluate_entry] up to the model call. *)
Definition eval_lookup (evs : list eval_doc) (edb : entries_db) (j u : string)
    (t : today) : lookup_result :=
  match find (fun d => of_pair j u d && String.eqb (v_date d) (iso_today t)) evs with
  | Some d => Cached (v_text d)
  | None =>
      match find (fun e => String.eqb (e_journal e) j && String.eqb (e_user e) u &&
                           (String.eqb (e_date e) (padded t) ||
                            String.eqb (e_date e) (unpadded t))) (docs edb) with
      | Some e => Evaluate {| pe_journal := j; pe_user := u; pe_date := iso_today t;
                              pe_entry_text := e_text e |}
      | None => NoEntry
      end
  end.

(** [delete_many({..., "date": {"$ne": iso_today}})] then [insert_one]. *)
Definition eval_write (evs : list eval_doc) (p : pending_eval) (evaluation : string)
    : list eval_doc :=
  List.filter (fun d => negb (of_pair (pe_journal p) (pe_user p) d &&
                         negb (String.eqb (v_date d) (pe_date p)))) evs
  ++ [{| v_journal := pe_journal p; v_user := pe_user p; v_date := pe_date p;
         v_text := evaluation |}].

Section Handler.
Variable respond : nat -> AI.call -> string.
Variable sha256_hex : string -> string.
Variable CACHE_TTL_SECONDS : Z.

(** [coach_evaluate_entry(journal_id)] run on its own at time [now];
    [None] is an HTTP error. *)
Definition coach_evaluate_entry (evs : list eval_doc) (edb : entries_db)
    (ai : AI.ai_state) (jr : journal) (j u : string) (t : today) (now : Z)
    : option string * list eval_doc * AI.ai_state :=
  match eval_lookup evs edb j u t with
  | Cached text => (Some text, evs, ai)
  | NoEntry => (None, evs, ai)
  | Evaluate p =>
      let '(evaluation, ai') :=
        AI.get_entry_evaluation respond sha256_hex CACHE_TTL_SECONDS
          (jr_goal jr) (pe_entry_text p) (jr_name jr) (iso_today t) now ai in
      (Some evaluation, eval_write evs p evaluation, ai')
  end.

End Handler.

(** Interleaved requests: [eval_begin] runs a request up to its model
    call, [eval_finish] resumes one with the model's evaluation. *)
Record eval_server : Type := mk_es {
  evals : list eval_doc;
  entries : entries_db;
  suspended : list pending_eval
}.

Inductive eval_step : eval_server -> eval_server -> Prop :=
| eval_begin s j u t p :
    eval_lookup (evals s) (entries s) j u t = Evaluate p ->
    eval_step s {| evals := evals s; entries := entries s;
                   suspended := suspended s ++ [p] |}
| eval_finish s pre p post evaluation :
    suspended s = pre ++ p :: post ->
    eval_step s {| evals := eval_write (evals s) p evaluation; entries := entries s;
                   suspended := pre ++ post |}.

End Evals.

(* ================================================================== *)
(** ** Inputs of the concrete runs *)
(* ================================================================== *)

Module Runs.
Import AI.

(** JSON text written with [`] for the double quote. *)
Definition jtext (s : string) : string :=
  string_of_list_ascii
    (map (fun c => if Ascii.eqb c "`"%char then "034"%char else c)
         (list_ascii_of_string s)).

(** A model answering plan requests with [plan] and backfill requests
    with [more]. *)
Definition model (plan more : string) (n : nat) (c : call) : string :=
  match c with
  | CallPlan _ _ => plan
  | CallBackfill _ _ _ _ => more
  | _ => EmptyString
  end.

Definition empty_state : ai_state := {| cache := ∅; calls := [] |}.

End Runs.

(* ================================================================== *)
(** ** Vocabulary of the statements *)
(* ================================================================== *)

Module Vocab.
Import Json AI.

(** [1; 2; ...; n] as integers, from [i]. *)
Fixpoint zrange (i : Z) (n : nat) : list Z :=
  match n with
  | O => []
  | S n' => i :: zrange (i + 1)%Z n'
  end.

(** Everything but [order] is kept by the renumbering. *)
Definition fields (s : AI.step) : string * string * string * string :=
  (AI.s_id s, AI.s_title s, AI.s_description s, AI.s_expected_outcome s).

(** [j] is a dict whose stripped title and description pass
    [_is_meta_goal_step]. *)
Definition passes_filter (j : json) (title desc : string) : Prop :=
  exists kv, j = JObj kv /\
    str_or_empty (get kv "title") = Ok title /\
    str_or_empty (get kv "description") = Ok desc /\
    Meta._is_meta_goal_step (combo title desc) = false.

(** The conditions under which the backfill loop appends [s], built from
    the raw step [st], to the list [pre]. *)
Definition backfill_accepts (st : json) (pre : list step) (s : step) : Prop :=
  exists kv title desc, st = JObj kv /\
    str_or_empty (get kv "title") = Ok title /\
    str_or_empty (get kv "description") = Ok desc /\
    title <> EmptyString /\
    Meta._is_meta_goal_step (combo title desc) = false /\
    Forall (fun x => Py.lower title <> Py.lower (s_title x)) pre /\
    s_title s = Py.take 80 title /\
    s_description s = Py.take 220 desc.

(** [Appended bf pre added]: [added] is a list of steps that the backfill
    loop appends to [pre], one accepted raw step of [bf] at a time. *)
Inductive Appended (bf : list json) : list step -> list step -> Prop :=
| Appended_nil pre : Appended bf pre []
| Appended_cons pre st s added :
    In st bf -> backfill_accepts st pre s ->
    Appended bf (pre ++ [s]) added -> Appended bf pre (s :: added).

(** [Backfilled bf pre added]: [added] is what the backfill loop appends
    to [pre] while it walks [bf] in order: each raw step is skipped or,
    when accepted, appended, so [added] follows the order of [bf]. *)
Inductive Backfilled : list json -> list step -> list step -> Prop :=
| Backfilled_nil pre : Backfilled [] pre []
| Backfilled_skip st bf pre added :
    Backfilled bf pre added -> Backfilled (st :: bf) pre added
| Backfilled_take st bf pre s added :
    backfill_accepts st pre s -> Backfilled bf (pre ++ [s]) added ->
    Backfilled (st :: bf) pre (s :: added).

(** The request [get_goal_breakdown] sends first. *)
Definition plan_call (goal : string) (mt : Z) : call := CallPlan (Py.strip goal) mt.

(** The request of [_generate_concrete_steps] after the first pass left
    the steps [first]: [8 - n] steps from order [n + 1]. *)
Definition backfill_call (goal : string) (first : list step) : call :=
  let n := Z.of_nat (length first) in
  CallBackfill goal (map Py.strip (map s_title first)) (n + 1) (8 - n).

(** The steps parsed from the first model answer, sorted. *)
Definition first_steps (json_loads : string -> option json)
    (respond : nat -> call -> string) (goal : string) (mt : Z) (st : ai_state)
    : list step :=
  sort_by_order
    (catch (first_pass json_loads (respond (length (calls st)) (plan_call goal mt))) []).

(** No step list can be read from the answer [raw]: no brace-delimited
    part, a decoding error, or a value that is not a dict with a list
    under ['steps']. *)
Definition unparsable (json_loads : string -> option json) (raw : string) : Prop :=
  Meta.plan_json_search (Py.strip raw) = None \/
  json_loads (extract_text raw) = None \/
  (exists d, json_loads (extract_text raw) = Some d /\ steps_list d = None).

(** The list of a result that did not raise. *)
Definition ok_list {A} (r : res (list A)) : list A :=
  match r with Ok l => l | Raise _ => [] end.

(** The time of [op], if any, is before [e]. *)
Definition op_before (e : Z) (op : ai_op) : Prop :=
  forall t, op_time op = Some t -> (t < e)%Z.

End Vocab.

(* ================================================================== *)
(** ** More of main.py and daysSince.py *)
(* ================================================================== *)

(** *** The step dicts of [get_goal_breakdown] and [coach_breakdown] *)

Module Handlers.
Import Json AI.

(** The ids [get_goal_breakdown] can produce: non-empty, over
    [a-z0-9-], not starting with a hyphen. *)
Definition good_id (s : string) : bool :=
  match list_ascii_of_string s with
  | [] => false
  | c :: _ => negb (Ascii.eqb c "-"%char) && forallb id_char (list_ascii_of_string s)
  end.

(** The shape of a step the coercions build: a [good_id] id, a non-empty
    title, and the description and expected outcome within their
    [[:220]] and [[:160]] slices. *)
Definition step_shape (s : step) : bool :=
  good_id (s_id s) && negb (String.eqb (s_title s) EmptyString) &&
  (String.length (s_description s) <=? 220)%nat &&
  (String.length (s_expected_outcome s) <=? 160)%nat.

(** The dict literal [steps.append({...})] builds for a step. *)
Definition step_dict (s : step) : Norm.dict :=
  [("id", JStr (s_id s)); ("title", JStr (s_title s));
   ("description", JStr (s_description s));
   ("expected_outcome", JStr (s_expected_outcome s)); ("order", JNum (s_order s))].

(** [coach_breakdown] after the journal lookup: [goal = journal.get("goal")
    or ""], [get_goal_breakdown(goal)] with its default [max_tokens=900],
    then [_normalize_steps]. *)
Definition coach_breakdown (json_loads : string -> option json)
    (respond : nat -> call -> string) (sort_other : list Norm.dict -> list Norm.dict)
    (goal : option string) (st : ai_state) : res (list Norm.dict) * ai_state :=
  let g := match goal with
           | Some x => if String.eqb x EmptyString then EmptyString else x
           | None => EmptyString
           end in
  let '(r, st1) := get_goal_breakdown json_loads respond g 900 st in
  match r with
  | Ok l => (Ok (Norm._normalize_steps sort_other (JArr (map (fun s => JObj (step_dict s)) l))), st1)
  | Raise e => (Raise e, st1)
  end.

(** [good_id] on the character list. *)
Definition good_list (l : list ascii) : bool :=
  match l with
  | [] => false
  | c :: _ => negb (Ascii.eqb c "-"%char) && forallb id_char l
  end.

End Handlers.

(** *** daysSince.py *)

Module DaysSince.

(** [timedelta] normalisation of a difference of [us] microseconds:
    [divmod(us, 10**6)], then [divmod(seconds, 86400)]; the fields
    [(days, seconds, microseconds)]. *)
Definition timedelta_fields (us : Z) : Z * Z * Z :=
  let s := (us / 1000000)%Z in
  ((s / 86400)%Z, (s mod 86400)%Z, (us mod 1000000)%Z).

(** One iteration of the loop for [delta = now - start] of [delta_us]
    microseconds: [(days, hours, minutes, seconds)]. *)
Definition tick (delta_us : Z) : Z * Z * Z * Z :=
  let '(days, secs, _) := timedelta_fields delta_us in
  let hours := (secs / 3600)%Z in
  let remainder := (secs mod 3600)%Z in
  let minutes := (remainder / 60)%Z in
  let seconds := (remainder mod 60)%Z in
  (days, hours, minutes, seconds).

(** [f"{days}:{hours}:{minutes}:{seconds}"] *)
Definition line (delta_us : Z) : string :=
  let '(d, h, m, s) := tick delta_us in
  (Py.str_Z d ++ ":" ++ Py.str_Z h ++ ":" ++ Py.str_Z m ++ ":" ++ Py.str_Z s)%string.

End DaysSince.

(** *** [journal_detail_page]: the [created_at] shown on the page *)

Module Pages.

(** [c in s] for one character. *)
Fixpoint has_char (c : ascii) (s : string) : bool :=
  match s with
  | EmptyString => false
  | String x r => Ascii.eqb x c || has_char c r
  end.

(** [s.rstrip("Z")] *)
Definition rstrip_Z (s : string) : string :=
  string_of_list_ascii
    (rev (Py.lstrip_by (fun c => Ascii.eqb c "Z"%char) (rev (list_ascii_of_string s)))).

(** [s.split("+")[0]] *)
Fixpoint before_plus (s : string) : string :=
  match s with
  | EmptyString => EmptyString
  | String c r => if Ascii.eqb c "+"%char then EmptyString else String c (before_plus r)
  end.

(** [s.replace(" ", "T")] *)
Fixpoint replace_space (s : string) : string :=
  match s with
  | EmptyString => EmptyString
  | String c r => String (if Ascii.eqb c " "%char then "T"%char else c) (replace_space r)
  end.

(** [s.endswith("Z")] *)
Definition endswith_Z (s : string) : bool :=
  match rev (list_ascii_of_string s) with
  | c :: _ => Ascii.eqb c "Z"%char
  | [] => false
  end.

(** The [else] branch for a stored, non-empty [created_at]. *)
Definition normalize_created_at (c : string) : string :=
  if negb (has_char "Z"%char c) && negb (has_char "+"%char c) then
    let c1 := rstrip_Z c in
    let c2 := before_plus c1 in
    let c3 := replace_space c2 in
    if endswith_Z c3 then c3 else (c3 ++ "Z")%string
  else c.

(** [created_at = journal.get("created_at")]: when missing or empty, the
    ObjectId's generation time formatted as the code does
    ([oid_time_iso]). *)
Definition page_created_at (stored : option string) (oid_time_iso : string) : string :=
  match stored with
  | Some c => if String.eqb c EmptyString then oid_time_iso else normalize_created_at c
  | None => oid_time_iso
  end.

End Pages.

(** *** The route table of main.py *)

Module Routes.

Inductive handler : Type :=
| openapi | swagger_ui_html | swagger_ui_redirect | redoc_html
| get_start_date | get_journal | root | login_page | journals_page
| journal_detail_page | register_user | login_user | logout_user | static_files
| serve_old_index | add_journal_entry | update_journal | get_user_journal
| get_my_journal | create_entry | list_entries | update_entry | delete_entry
| coach_suggest | coach_breakdown | coach_get_plan | toggle_step_completion
| coach_evaluate_entry.

(** An endpoint with its methods ([@app.get(path)] and the like) or
    [app.mount(prefix, ...)]. *)
Inductive route : Type :=
| Endpoint (methods : list string) (path : string) (h : handler)
| Mount (prefix : string) (h : handler).

(** The routes in the order [FastAPI()] and main.py register them:
    [FastAPI.setup] first adds the documentation routes (plain Starlette
    routes, which answer HEAD as well as GET). *)
Definition routes : list route :=
  [Endpoint ["GET"; "HEAD"] "/openapi.json" openapi;
   Endpoint ["GET"; "HEAD"] "/docs" swagger_ui_html;
   Endpoint ["GET"; "HEAD"] "/docs/oauth2-redirect" swagger_ui_redirect;
   Endpoint ["GET"; "HEAD"] "/redoc" redoc_html;
   Endpoint ["GET"] "/api/start-date" get_start_date;
   Endpoint ["GET"] "/api/journal" get_journal;
   Endpoint ["GET"] "/" root;
   Endpoint ["GET"] "/login" login_page;
   Endpoint ["GET"] "/journals" journals_page;
   Endpoint ["GET"] "/journals/{journal_id}" journal_detail_page;
   Endpoint ["POST"] "/api/register" register_user;
   Endpoint ["POST"] "/api/login" login_user;
   Endpoint ["POST"] "/api/logout" logout_user;
   Mount "/static" static_files;
   Endpoint ["GET"] "/old" serve_old_index;
   Endpoint ["POST"] "/api/journal" add_journal_entry;
   Endpoint ["PUT"] "/api/journal/{journal_id}" update_journal;
   Endpoint ["GET"] "/api/journal/{user_id}" get_user_journal;
   Endpoint ["GET"] "/api/journal/me" get_my_journal;
   Endpoint ["POST"] "/api/journal/{journal_id}/entries" create_entry;
   Endpoint ["GET"] "/api/journal/{user_id}/{journal_id}/entries" list_entries;
   Endpoint ["PUT"] "/api/journal/entry/{entry_id}" update_entry;
   Endpoint ["DELETE"] "/api/journal/entry/{entry_id}" delete_entry;
   Endpoint ["POST"] "/api/coach/suggest" coach_suggest;
   Endpoint ["POST"] "/api/coach/breakdown" coach_breakdown;
   Endpoint ["GET"] "/api/coach/plan/{journal_id}" coach_get_plan;
   Endpoint ["POST"] "/api/coach/plan/{journal_id}/toggle" toggle_step_completion;
   Endpoint ["POST"] "/api/coach/evaluate/{journal_id}" coach_evaluate_entry].

(** [s.split("/")] *)
Fixpoint split_slash_from (s : string) (cur : string) : list string :=
  match s with
  | EmptyString => [cur]
  | String c r =>
      if Ascii.eqb c "/"%char then cur :: split_slash_from r EmptyString
      else split_slash_from r (cur ++ String c EmptyString)%string
  end.

Definition split_slash (s : string) : list string := split_slash_from s EmptyString.

Definition is_param (seg : string) : bool :=
  match seg with String "{"%char _ => true | _ => false end.

(** A template compiled as Starlette does: [{name}] becomes [[^/]+], the
    rest is literal and the whole path must match.  Segment by segment:
    a parameter takes any non-empty segment. *)
Fixpoint segs_match (tpl path : list string) : bool :=
  match tpl, path with
  | [], [] => true
  | t :: tpl', p :: path' =>
      (if is_param t then negb (String.eqb p EmptyString) else String.eqb t p)
      && segs_match tpl' path'
  | _, _ => false
  end.

Definition path_matches (tpl path : string) : bool :=
  segs_match (split_slash tpl) (split_slash path).

(** A mount at [prefix] matches every path under [prefix ++ "/"], any
    method. *)
Definition mount_matches (prefix path : string) : bool :=
  String.prefix (prefix ++ "/") path.

Inductive outcome : Type :=
| Handled (h : handler)
| MethodNotAllowed  (* a path matched, with another method: 405 *)
| NotFound.         (* 404, or the redirect of redirect_slashes *)

(** [Router.__call__]: the first full match handles the request; else a
    partial match (path only) gives 405. *)
Fixpoint dispatch_from (rs : list route) (method path : string) (partial : bool) : outcome :=
  match rs with
  | [] => if partial then MethodNotAllowed else NotFound
  | Endpoint ms tpl h :: rs' =>
      if path_matches tpl path then
        if existsb (String.eqb method) ms then Handled h else dispatch_from rs' method path true
      else dispatch_from rs' method path partial
  | Mount prefix h :: rs' =>
      if mount_matches prefix path then Handled h else dispatch_from rs' method path partial
  end.

Definition dispatch (method path : string) : outcome := dispatch_from routes method path false.

(** A full match of one route. *)
Definition full_match (method path : string) (r : route) : bool :=
  match r with
  | Endpoint ms tpl _ => path_matches tpl path && existsb (String.eqb method) ms
  | Mount prefix _ => mount_matches prefix path
  end.

Definition route_handler (r : route) : handler :=
  match r with Endpoint _ _ h => h | Mount _ h => h end.

End Routes.

(** *** [add_journal_entry] and [update_journal] *)

Module Journals.
Import Json.

(** A BSON [_id]: an ObjectId or a string. *)
Inductive bson_id : Type :=
| ObjectIdV (n : N)
| StrIdV (s : string).

Record journal_doc : Type := mk_jdoc {
  j_id : bson_id;
  j_fields : Norm.dict
}.

(** [journals_collection]; [insert_one] draws the next ObjectId. *)
Record journals_db : Type := mk_jdb {
  jdocs : list journal_doc;
  next_oid : N
}.

(** [a or b] on optional JSON values. *)
Definition or_value (a b : option json) : option json :=
  match a with Some j => if truthy j then Some j else b | None => b end.

Definition truthy_opt (a : option json) : bool :=
  match a with Some j => truthy j | None => false end.

(** [add_journal_entry]: the error code, or the inserted id. *)
Definition add_journal_entry (data : Norm.dict) (cookie : option string)
    (utc_now_iso : string) (db : journals_db) : (nat + bson_id) * journals_db :=
  let user_id := or_value (get data "user_id") (option_map JStr cookie) in
  let text := match get data "text" with Some t => t | None => JStr EmptyString end in
  let date := get data "date" in
  let name := get data "name" in
  let goal := get data "goal" in
  match user_id, date with
  | Some u, Some d =>
      if negb (truthy u) || negb (truthy d) then (inl 400%nat, db) else
      let entry :=
        [("user_id", u); ("date", d); ("text", text)] ++
        match name with Some n => if truthy n then [("name", n)] else [] | None => [] end ++
        match goal with Some g => if truthy g then [("goal", g)] else [] | None => [] end ++
        (if truthy_opt name then [("created_at", JStr (utc_now_iso ++ "Z")%string)] else []) in
      let id := ObjectIdV (next_oid db) in
      (inr id, {| jdocs := jdocs db ++ [{| j_id := id; j_fields := entry |}];
                  next_oid := N.succ (next_oid db) |})
  | _, _ => (inl 400%nat, db)
  end.

Definition id_eqb (a b : bson_id) : bool :=
  match a, b with
  | ObjectIdV x, ObjectIdV y => N.eqb x y
  | StrIdV x, StrIdV y => String.eqb x y
  | _, _ => false
  end.

(** [update_one]: the first document with that [_id]. *)
Fixpoint update_first (id : bson_id) (f : Norm.dict -> Norm.dict) (l : list journal_doc)
    : option (list journal_doc) :=
  match l with
  | [] => None
  | d :: r =>
      if id_eqb (j_id d) id then Some ({| j_id := j_id d; j_fields := f (j_fields d) |} :: r)
      else option_map (cons d) (update_first id f r)
  end.

(** [update_journal(journal_id, data)]: the filter is [{"_id": journal_id}]
    with the path's string. *)
Definition update_journal (journal_id : string) (data : Norm.dict) (db : journals_db)
    : (nat + unit) * journals_db :=
  let update_fields :=
    (if Norm.has_key data "text" then
       match get data "text" with Some v => [("text", v)] | None => [] end else []) ++
    (if Norm.has_key data "name" then
       match get data "name" with Some v => [("name", v)] | None => [] end else []) in
  match update_fields with
  | [] => (inl 400%nat, db)
  | _ =>
      let set := fun kv => fold_left (fun kv '(k, v) => Norm.dict_set kv k v) update_fields kv in
      match update_first (StrIdV journal_id) set (jdocs db) with
      | None => (inl 404%nat, db)
      | Some l => (inr tt, {| jdocs := l; next_oid := next_oid db |})
      end
  end.

(** A run of [add_journal_entry] and [update_journal] requests. *)
Inductive jop : Type :=
| JAdd (data : Norm.dict) (cookie : option string) (utc_now_iso : string)
| JUpdate (journal_id : string) (data : Norm.dict).

(** The replies of the [update_journal] requests, and the collection. *)
Fixpoint run_jops (ops : list jop) (db : journals_db) : list (nat + unit) * journals_db :=
  match ops with
  | [] => ([], db)
  | JAdd data cookie t :: r => run_jops r (snd (add_journal_entry data cookie t db))
  | JUpdate jid data :: r =>
      let '(res, db1) := update_journal jid data db in
      let '(rs, db2) := run_jops r db1 in
      (res :: rs, db2)
  end.

Definition empty_journals : journals_db := {| jdocs := []; next_oid := 0%N |}.

(** Every stored journal id is an [ObjectId]. *)
Definition all_oid (db : journals_db) : Prop :=
  List.Forall (fun d => match j_id d with ObjectIdV _ => True | StrIdV _ => False end) (jdocs db).

End Journals.

(** *** [register_user] and [login_user] *)

Module Users.

Record user_doc : Type := mk_user {
  u_id : N;
  u_name : string;
  u_hash : string
}.

Record users_db : Type := mk_udb {
  udocs : list user_doc;
  next_uid : N
}.

Section Auth.
(** [pwd_context.hash(password)] with the salt of the call. *)
Variable get_password_hash : nat -> string -> string.
(** [pwd_context.verify(plain, hashed)] *)
Variable verify_password : string -> string -> bool.

(** [not x] for a string field of the body ([None] when missing). *)
Definition blank (o : option string) : bool :=
  match o with Some s => String.eqb s EmptyString | None => true end.

(** [register_user(user)] with the salt [salt]: the error code, or the
    new user's id.  The request runs as one step, [find_one] and
    [insert_one] together: this models requests handled one at a time. *)
Definition register_user (username password : option string) (salt : nat)
    (db : users_db) : (nat + N) * users_db :=
  match username, password with
  | Some u, Some p =>
      if blank username || blank password then (inl 400%nat, db) else
      if existsb (fun d => String.eqb (u_name d) u) (udocs db) then (inl 400%nat, db) else
      let id := next_uid db in
      (inr id, {| udocs := udocs db ++ [mk_user id u (get_password_hash salt p)];
                  next_uid := N.succ id |})
  | _, _ => (inl 400%nat, db)
  end.

(** [login_user(user)] *)
Definition login_user (username password : option string) (db : users_db) : nat + N :=
  match username, password with
  | Some u, Some p =>
      if blank username || blank password then inl 400%nat else
      match find (fun d => String.eqb (u_name d) u) (udocs db) with
      | Some d => if verify_password p (u_hash d) then inr (u_id d) else inl 401%nat
      | None => inl 401%nat
      end
  | _, _ => inl 400%nat
  end.

(** Registrations one after the other: (username, password, salt). *)
Definition register_all (regs : list (option string * option string * nat)) (db : users_db)
    : users_db :=
  fold_left (fun db '(u, p, salt) => snd (register_user u p salt db)) regs db.

End Auth.
End Users.

(** *** [coach_suggest]: the excerpt of recent entries *)

Module Suggest.

(** The line boundaries of [str.splitlines] among 8-bit characters. *)
Definition line_break (c : ascii) : bool :=
  let n := nat_of_ascii c in
  ((10 <=? n) && (n <=? 13)) || ((28 <=? n) && (n <=? 30)) || (n =? 133).

(** [str.splitlines()]: [\r\n] is one boundary; no empty last line. *)
Fixpoint splitlines_from (l : list ascii) (cur : list ascii) : list string :=
  match l with
  | [] => match cur with [] => [] | _ => [string_of_list_ascii (rev cur)] end
  | c :: r =>
      if Ascii.eqb c "013"%char then
        match r with
        | c' :: r' =>
            if Ascii.eqb c' "010"%char
            then string_of_list_ascii (rev cur) :: splitlines_from r' []
            else string_of_list_ascii (rev cur) :: splitlines_from r []
        | [] => string_of_list_ascii (rev cur) :: splitlines_from r []
        end
      else if line_break c then string_of_list_ascii (rev cur) :: splitlines_from r []
      else splitlines_from r (c :: cur)
  end.

Definition splitlines (s : string) : list string := splitlines_from (list_ascii_of_string s) [].

(** [a < b] on strings. *)
Fixpoint str_ltb (a b : string) : bool :=
  match a, b with
  | EmptyString, String _ _ => true
  | String x a', String y b' =>
      if (nat_of_ascii x <? nat_of_ascii y) then true
      else if Nat.eqb (nat_of_ascii x) (nat_of_ascii y) then str_ltb a' b' else false
  | _, EmptyString => false
  end.

(** [lines.sort(key=lambda t: str(t[0]), reverse=True)]: descending and
    stable. *)
Fixpoint insert_desc (x : string * string) (l : list (string * string)) : list (string * string) :=
  match l with
  | [] => [x]
  | y :: l' => if str_ltb (fst x) (fst y) then y :: insert_desc x l' else x :: l
  end.

Fixpoint sort_desc (l : list (string * string)) : list (string * string) :=
  match l with
  | [] => []
  | x :: l' => insert_desc x (sort_desc l')
  end.

(** [for _, txt in lines: if txt: aggregated.extend(reversed(txt.splitlines()))] *)
Definition aggregated (lines : list (string * string)) : list string :=
  flat_map (fun '(_, txt) => if String.eqb txt EmptyString then [] else rev (splitlines txt))
           lines.

(** ["\n".join(l)] *)
Fixpoint join_nl (l : list string) : string :=
  match l with
  | [] => EmptyString
  | [x] => x
  | x :: r => (x ++ String "010" (join_nl r))%string
  end.

(** [recent_excerpt] from the [(str(_id), text)] pairs of the entries
    found. *)
Definition recent_excerpt (lines : list (string * string)) : string :=
  join_nl (firstn 120 (aggregated (sort_desc lines))).

Fixpoint count_nl (s : string) : nat :=
  match s with
  | EmptyString => 0
  | String c r => (if Ascii.eqb c "010"%char then 1 else 0) + count_nl r
  end.

End Suggest.

(* ================================================================== *)
(** ** General facts *)
(* ================================================================== *)

Import Vocab.

Ltac case_res :=
  repeat match goal with
  | H : context [match ?x with _ => _ end] |- _ =>
      let E := fresh "E" in destruct x eqn:E; try discriminate H
  end.

Section KeySortFacts.
Context {A : Type} (key : A -> Z).

Lemma insert_by_perm (x : A) (l : list A) :
  Permutation (KeySort.insert_by key x l) (x :: l).
Proof.
  induction l as [|y l IH]; simpl; [auto|].
  destruct (key x <=? key y)%Z; [auto|].
  rewrite IH. apply perm_swap.
Qed.

Lemma sort_by_perm (l : list A) : Permutation (KeySort.sort_by key l) l.
Proof.
  induction l as [|x l IH]; simpl; [auto|].
  rewrite insert_by_perm. auto.
Qed.

Lemma insert_by_hdrel (x y : A) (l : list A) :
  HdRel (fun a b => (key a <= key b)%Z) y l -> (key y <= key x)%Z ->
  HdRel (fun a b => (key a <= key b)%Z) y (KeySort.insert_by key x l).
Proof.
  intros H Hyx. destruct l as [|z l]; simpl.
  - constructor. exact Hyx.
  - destruct (key x <=? key z)%Z; constructor; [exact Hyx|].
    inversion H; assumption.
Qed.

Lemma insert_by_sorted (x : A) (l : list A) :
  Sorted (fun a b => (key a <= key b)%Z) l ->
  Sorted (fun a b => (key a <= key b)%Z) (KeySort.insert_by key x l).
Proof.
  induction l as [|y l IH]; intros H; simpl.
  - repeat constructor.
  - destruct (key x <=? key y)%Z eqn:E.
    + apply Z.leb_le in E. constructor; [exact H | constructor; exact E].
    + apply Z.leb_gt in E. inversion H; subst.
      constructor; [apply IH; assumption|].
      apply insert_by_hdrel; [assumption | lia].
Qed.

Lemma sort_by_sorted (l : list A) :
  Sorted (fun a b => (key a <= key b)%Z) (KeySort.sort_by key l).
Proof.
  induction l as [|x l IH]; simpl; [constructor|].
  apply insert_by_sorted. exact IH.
Qed.

(** Inserting [x] passes only elements with a smaller key, so the
    elements of any one key keep their order. *)
Lemma insert_by_stable (x : A) (l : list A) (z : Z) :
  List.filter (fun a => Z.eqb (key a) z) (KeySort.insert_by key x l) =
  List.filter (fun a => Z.eqb (key a) z) (x :: l).
Proof.
  induction l as [|y l IH]; simpl; [reflexivity|].
  destruct (key x <=? key y)%Z eqn:E; [reflexivity|].
  apply Z.leb_gt in E. simpl. rewrite IH. simpl.
  destruct (Z.eqb_spec (key x) z), (Z.eqb_spec (key y) z); try reflexivity; lia.
Qed.

Lemma sort_by_stable (l : list A) (z : Z) :
  List.filter (fun a => Z.eqb (key a) z) (KeySort.sort_by key l) =
  List.filter (fun a => Z.eqb (key a) z) l.
Proof.
  induction l as [|x l IH]; simpl; [reflexivity|].
  rewrite insert_by_stable. simpl. rewrite IH. reflexivity.
Qed.

End KeySortFacts.

Lemma renumber_length i l : length (AI.renumber i l) = length l.
Proof. revert i; induction l; intros; simpl; auto. Qed.

Lemma renumber_orders i l : map AI.s_order (AI.renumber i l) = zrange i (length l).
Proof. revert i; induction l; intros; simpl; [auto|]. f_equal. apply IHl. Qed.

Lemma renumber_fields i l : map fields (AI.renumber i l) = map fields l.
Proof. revert i; induction l; intros; simpl; [auto|]. f_equal. apply IHl. Qed.

Lemma Forall_renumber (P : AI.step -> Prop) i l :
  (forall s s', fields s = fields s' -> P s -> P s') ->
  Forall P l -> Forall P (AI.renumber i l).
Proof.
  intros HP H. revert i; induction H; intros; simpl; constructor; auto.
  eapply HP; [|eassumption]. reflexivity.
Qed.

(* ================================================================== *)
(** ** Facts about the step pipeline *)
(* ================================================================== *)

Module StepFacts.
Import Json AI Vocab.

Lemma coerce_first_some idx j s :
  coerce_first idx j = Ok (Some s) ->
  exists title desc, passes_filter j title desc /\ s_description s = Py.take 220 desc.
Proof.
  intros H. destruct j as [| | | | |l|kv]; simpl in H; try discriminate.
  unfold bind in H. case_res;
  injection H as <-; eexists _, _;
  (split; [exists kv; split; [reflexivity|]; split; [eassumption|];
           split; eassumption | reflexivity]).
Qed.

Lemma coerce_all_from l idx r :
  coerce_all l idx = Ok r ->
  Forall (fun s => exists j title desc, In j l /\ passes_filter j title desc /\
                     s_description s = Py.take 220 desc) r.
Proof.
  revert idx r. induction l as [|j l IH]; intros idx r H; simpl in H.
  - injection H as <-. constructor.
  - unfold bind in H.
    destruct (coerce_first idx j) as [o|e] eqn:E; [|discriminate].
    destruct (coerce_all l (S idx)) as [rest|e] eqn:E0; [|discriminate].
    injection H as <-.
    pose proof (IH _ _ E0) as Hrest.
    assert (Hw : Forall (fun s => exists j0 title desc, In j0 (j :: l) /\
                   passes_filter j0 title desc /\ s_description s = Py.take 220 desc) rest).
    { eapply Forall_impl; [exact Hrest|]. simpl.
      intros s (j0 & t & d & Hin & Hp & Hd). exists j0, t, d. auto. }
    destruct o as [s|]; [|exact Hw].
    constructor; [|exact Hw].
    destruct (coerce_first_some _ _ _ E) as (t & d & Hp & Hd).
    exists j, t, d. simpl. auto.
Qed.

Lemma Appended_weaken bf bf' pre added :
  incl bf bf' -> Appended bf pre added -> Appended bf' pre added.
Proof.
  intros Hi H. induction H; [constructor|].
  econstructor; eauto.
Qed.

Lemma backfill_one_some st pre s :
  backfill_one st pre = Ok (Some s) -> backfill_accepts st pre s.
Proof.
  intros H. unfold backfill_one in H.
  destruct st as [| | | | |l|kv]; simpl in H; try discriminate.
  unfold bind in H. case_res;
  injection H as <-; eexists _, _, _;
  (split; [reflexivity|]; split; [eassumption|]; split; [eassumption|];
   split; [apply String.eqb_neq; eassumption|]; split; [eassumption|];
   split; [|split; reflexivity]);
  apply List.Forall_forall; intros x Hx Heq;
  match goal with
  | Hn : existsb ?f pre = false |- _ =>
      assert (Hc : existsb f pre = true) by
        (apply existsb_exists; exists x; split; [exact Hx|]; apply String.eqb_eq; exact Heq);
      congruence
  end.
Qed.

Lemma backfill_loop_appended bf pre :
  exists added, backfill_loop bf pre = pre ++ added /\ Appended bf pre added.
Proof.
  revert pre. induction bf as [|st bf IH]; intros pre; simpl.
  - exists []. rewrite app_nil_r. split; [reflexivity|constructor].
  - destruct (backfill_one st pre) as [[s|]|e] eqn:E.
    + destruct (IH (pre ++ [s])) as (added & Heq & Hap).
      exists (s :: added). split.
      * rewrite Heq, <- app_assoc. reflexivity.
      * econstructor; [left; reflexivity | apply backfill_one_some; exact E |].
        eapply Appended_weaken; [|exact Hap]. intros x Hx; right; exact Hx.
    + destruct (IH pre) as (added & Heq & Hap). exists added. split; [exact Heq|].
      eapply Appended_weaken; [|exact Hap]. intros x Hx; right; exact Hx.
    + exists []. rewrite app_nil_r. split; [reflexivity|constructor].
Qed.

Lemma Backfilled_none bf pre : Backfilled bf pre [].
Proof. induction bf; constructor; assumption. Qed.

Lemma backfill_loop_backfilled bf pre :
  exists added, backfill_loop bf pre = pre ++ added /\ Backfilled bf pre added.
Proof.
  revert pre. induction bf as [|st bf IH]; intros pre; simpl.
  - exists []. rewrite app_nil_r. split; [reflexivity|constructor].
  - destruct (backfill_one st pre) as [[s|]|e] eqn:E.
    + destruct (IH (pre ++ [s])) as (added & Heq & Hb).
      exists (s :: added). split.
      * rewrite Heq, <- app_assoc. reflexivity.
      * apply Backfilled_take; [apply backfill_one_some; exact E | exact Hb].
    + destruct (IH pre) as (added & Heq & Hb). exists added.
      split; [exact Heq | apply Backfilled_skip, Hb].
    + exists []. rewrite app_nil_r. split; [reflexivity | apply Backfilled_none].
Qed.

End StepFacts.

(* ================================================================== *)
(** ** [get_goal_breakdown] *)
(* ================================================================== *)

Module Breakdown.
Import Json AI Vocab StepFacts.

Lemma Forall_firstn' {A} (P : A -> Prop) n (l : list A) :
  Forall P l -> Forall P (firstn n l).
Proof.
  revert l; induction n as [|n IH]; intros l H; simpl; [constructor|].
  destruct H; constructor; auto.
Qed.

Lemma Forall_app' {A} (P : A -> Prop) (l1 l2 : list A) :
  Forall P l1 -> Forall P l2 -> Forall P (l1 ++ l2).
Proof. intros H1 H2. induction H1; simpl; auto. Qed.

Lemma Forall_sort_by_order (P : step -> Prop) l :
  Forall P l -> Forall P (sort_by_order l).
Proof.
  intros H. apply List.Forall_forall. intros x Hx.
  apply (List.Forall_forall P l); [exact H|].
  eapply Permutation_in; [apply sort_by_perm | exact Hx].
Qed.

Lemma get_app (l1 l2 : list (string * Json.json)) k :
  Json.get (l1 ++ l2) k =
  match Json.get l2 k with Some w => Some w | None => Json.get l1 k end.
Proof.
  induction l1 as [|[k' v] l1 IH]; simpl.
  - destruct (Json.get l2 k); reflexivity.
  - rewrite IH. destruct (Json.get l2 k); [reflexivity|].
    destruct (Json.get l1 k); reflexivity.
Qed.

Lemma get_map_set (kv : list (string * Json.json)) k v :
  Json.get (map (fun '(k', w) => if String.eqb k' k then (k', v) else (k', w)) kv) k =
  if Norm.has_key kv k then Some v else None.
Proof.
  induction kv as [|[k' w] kv IH]; simpl; [reflexivity|].
  destruct (String.eqb k' k) eqn:E; simpl; rewrite IH, ?E.
  - destruct (Norm.has_key kv k); reflexivity.
  - destruct (Norm.has_key kv k); reflexivity.
Qed.

Lemma get_dict_set kv k v : Json.get (Norm.dict_set kv k v) k = Some v.
Proof.
  unfold Norm.dict_set. destruct (Norm.has_key kv k) eqn:E.
  - rewrite get_map_set, E. reflexivity.
  - rewrite get_app. simpl. rewrite String.eqb_refl. reflexivity.
Qed.

Lemma renumber_dicts_length i ds : length (Norm.renumber_dicts i ds) = length ds.
Proof. revert i; induction ds; intros; simpl; auto. Qed.

Lemma renumber_dicts_orders i ds :
  map (fun kv => Json.get kv "order") (Norm.renumber_dicts i ds) =
  map (fun z => Some (Json.JNum z)) (zrange i (length ds)).
Proof.
  revert i; induction ds as [|kv ds IH]; intros i; simpl; [reflexivity|].
  f_equal; [|apply IH].
  destruct (Norm.has_key _ "completed").
  - apply get_dict_set.
  - rewrite get_app. simpl. apply get_dict_set.
Qed.

Lemma breakdown_steps_nonblank jl r goal mt st :
  String.eqb (Py.strip goal) EmptyString = false ->
  breakdown_steps jl r goal mt st =
  (let first := first_steps jl r goal mt st in
   if (length first <? 8)%nat then
     (backfill_loop (concrete_steps jl (r (S (length (calls st))) (backfill_call goal first)))
        first,
      {| cache := cache st; calls := calls st ++ [plan_call goal mt; backfill_call goal first] |})
   else (first, {| cache := cache st; calls := calls st ++ [plan_call goal mt] |})).
Proof.
  intros H. unfold breakdown_steps, first_steps, backfill_call, plan_call,
    _generate_concrete_steps, call_model. rewrite H. simpl.
  rewrite length_app, Nat.add_1_r. simpl.
  destruct (length _ <? 8)%nat; [|reflexivity].
  rewrite <- app_assoc. reflexivity.
Qed.

Lemma get_goal_breakdown_nonblank jl r goal mt st :
  String.eqb (Py.strip goal) EmptyString = false ->
  get_goal_breakdown jl r goal mt st =
  (Ok (renumber 1 (firstn 8 (fst (breakdown_steps jl r goal mt st)))),
   snd (breakdown_steps jl r goal mt st)).
Proof.
  intros H. unfold get_goal_breakdown. rewrite H.
  destruct (breakdown_steps jl r goal mt st). reflexivity.
Qed.

Lemma unparsable_first_pass jl raw :
  (forall s kv, jl s = Some (JObj kv) -> Meta.plan_json_search s <> None) ->
  unparsable jl raw -> catch (first_pass jl raw) [] = [].
Proof.
  intros Hloads Hu. unfold first_pass.
  destruct Hu as [Hno | [Hdec | (d & Hd & Hs)]].
  - unfold extract_text. rewrite Hno.
    destruct (jl (Py.strip raw)) as [d|] eqn:E; [|reflexivity].
    destruct d as [| | | | |l|kv]; try reflexivity.
    exfalso. exact (Hloads _ _ E Hno).
  - rewrite Hdec. reflexivity.
  - rewrite Hd, Hs. reflexivity.
Qed.

(** C9: for a goal that is empty or whitespace only,
    [get_goal_breakdown] returns the empty list and leaves the state,
    hence the log of model calls, unchanged: no model call is made. *)
Theorem get_goal_breakdown_blank_goal jl r goal mt st
    (Hblank : Py.strip goal = EmptyString) :
  get_goal_breakdown jl r goal mt st = (Ok [], st).
Proof. unfold get_goal_breakdown. rewrite Hblank. reflexivity. Qed.

(** C7: [get_goal_breakdown] never raises: on every model answer it
    returns a list.  When no step list can be read from the first answer
    (no [\{[\s\S]*\}] match, a decoding error, a value that is not a
    dict or whose ['steps'] is not a list), the parsed steps are empty and
    the result consists of backfilled steps only.  The no-match case uses
    the fact that [json.loads] decodes a dict only from a text holding a
    ['{'] followed by a ['}']. *)
Theorem get_goal_breakdown_never_raises jl r goal mt st :
  (exists l, fst (get_goal_breakdown jl r goal mt st) = Ok l) /\
  ((forall s kv, jl s = Some (JObj kv) -> Meta.plan_json_search s <> None) ->
   Py.strip goal <> EmptyString ->
   unparsable jl (r (length (calls st)) (plan_call goal mt)) ->
   first_steps jl r goal mt st = [] /\
   exists added,
     Appended (concrete_steps jl (r (S (length (calls st))) (backfill_call goal []))) [] added /\
     fst (get_goal_breakdown jl r goal mt st) = Ok (renumber 1 (firstn 8 added))).
Proof.
  split.
  - unfold get_goal_breakdown.
    destruct (String.eqb (Py.strip goal) EmptyString); [eexists; reflexivity|].
    destruct (breakdown_steps jl r goal mt st). eexists; reflexivity.
  - intros Hloads Hgoal Hu.
    assert (Hb : String.eqb (Py.strip goal) EmptyString = false)
      by (apply String.eqb_neq; exact Hgoal).
    assert (Hf : first_steps jl r goal mt st = []).
    { unfold first_steps. rewrite (unparsable_first_pass _ _ Hloads Hu). reflexivity. }
    split; [exact Hf|].
    rewrite get_goal_breakdown_nonblank by exact Hb.
    rewrite breakdown_steps_nonblank by exact Hb. cbv zeta. rewrite Hf. simpl.
    destruct (backfill_loop_appended
                (concrete_steps jl (r (S (length (calls st))) (backfill_call goal []))) [])
      as (added & Heq & Hap).
    exists added. split; [exact Hap|]. rewrite Heq. reflexivity.
Qed.

(** C4: for a goal that is not blank, when the first answer yields
    [n < 8] steps after parsing and meta filtering, exactly one more
    model call is made, the backfill request for [8 - n] steps from order
    [n + 1]; from its answer only steps with a non-empty title that pass
    [_is_meta_goal_step] and whose title differs case-insensitively from
    every title already listed are appended; the result is the combined
    list cut to 8 steps and renumbered. *)
Theorem get_goal_breakdown_backfill jl r goal mt st
    (Hgoal : Py.strip goal <> EmptyString)
    (Hn : (length (first_steps jl r goal mt st) < 8)%nat) :
  calls (snd (get_goal_breakdown jl r goal mt st)) =
    calls st ++ [plan_call goal mt; backfill_call goal (first_steps jl r goal mt st)] /\
  exists added,
    Appended (concrete_steps jl (r (S (length (calls st)))
                                   (backfill_call goal (first_steps jl r goal mt st))))
             (first_steps jl r goal mt st) added /\
    fst (get_goal_breakdown jl r goal mt st) =
      Ok (renumber 1 (firstn 8 (first_steps jl r goal mt st ++ added))) /\
    (length (renumber 1 (firstn 8 (first_steps jl r goal mt st ++ added))) <= 8)%nat.
Proof.
  assert (Hb : String.eqb (Py.strip goal) EmptyString = false)
    by (apply String.eqb_neq; exact Hgoal).
  rewrite get_goal_breakdown_nonblank by exact Hb.
  rewrite breakdown_steps_nonblank by exact Hb. cbv zeta.
  apply Nat.ltb_lt in Hn. rewrite Hn. simpl.
  split; [reflexivity|].
  destruct (backfill_loop_appended
              (concrete_steps jl (r (S (length (calls st)))
                 (backfill_call goal (first_steps jl r goal mt st))))
              (first_steps jl r goal mt st)) as (added & Heq & Hap).
  exists added. rewrite Heq. split; [exact Hap|]. split; [reflexivity|].
  rewrite renumber_length, length_firstn. lia.
Qed.

(** C3 (as corrected): a backfilled step is appended only when its
    stripped title differs case-insensitively from the title of every
    step already in the list (first-pass steps and earlier backfilled
    ones); the steps of the first answer are not deduplicated. *)
Theorem get_goal_breakdown_backfill_dedup jl r goal mt st
    (Hgoal : Py.strip goal <> EmptyString) :
  exists bf added,
    Appended bf (first_steps jl r goal mt st) added /\
    fst (get_goal_breakdown jl r goal mt st) =
      Ok (renumber 1 (firstn 8 (first_steps jl r goal mt st ++ added))).
Proof.
  assert (Hb : String.eqb (Py.strip goal) EmptyString = false)
    by (apply String.eqb_neq; exact Hgoal).
  rewrite get_goal_breakdown_nonblank by exact Hb.
  rewrite breakdown_steps_nonblank by exact Hb. cbv zeta.
  destruct (length (first_steps jl r goal mt st) <? 8)%nat; simpl.
  - destruct (backfill_loop_appended
                (concrete_steps jl (r (S (length (calls st)))
                   (backfill_call goal (first_steps jl r goal mt st))))
                (first_steps jl r goal mt st)) as (added & Heq & Hap).
    exists (concrete_steps jl (r (S (length (calls st)))
              (backfill_call goal (first_steps jl r goal mt st)))), added.
    rewrite Heq. split; [exact Hap | reflexivity].
  - exists [], []. rewrite app_nil_r. split; [constructor | reflexivity].
Qed.

(** C2 (as corrected): [get_goal_breakdown] returns at most 8 steps
    whose orders are [1..n].  Before the cut, the list is the steps parsed
    from the first answer, stably sorted by their original ['order'] (a
    sorted permutation in which the steps of any one order keep their
    relative order), followed by the backfilled steps: the steps the
    backfill loop accepts while it walks the backfill answer's list, in
    that list's order (they are not sorted).  [_normalize_steps] returns
    at most 8 dicts whose ['order'] values are [1..n], taken from the
    list sorted by the original ['order']; when those are all integers
    (a missing ['order'] counting as 0), that list is a stable sort of
    the dicts of the input. *)
Theorem get_goal_breakdown_and_normalize_order jl r goal mt st sort_other steps :
  (exists l parsed bf added,
     fst (get_goal_breakdown jl r goal mt st) = Ok l /\
     (length l <= 8)%nat /\
     map s_order l = zrange 1 (length l) /\
     parsed = (if String.eqb (Py.strip goal) EmptyString then []
               else catch (first_pass jl (r (length (calls st)) (plan_call goal mt))) []) /\
     bf = (if String.eqb (Py.strip goal) EmptyString then []
           else if (length (sort_by_order parsed) <? 8)%nat
           then concrete_steps jl (r (S (length (calls st)))
                                     (backfill_call goal (sort_by_order parsed)))
           else []) /\
     Backfilled bf (sort_by_order parsed) added /\
     l = renumber 1 (firstn 8 (sort_by_order parsed ++ added)) /\
     Sorted (fun a b => (s_order a <= s_order b)%Z) (sort_by_order parsed) /\
     Permutation (sort_by_order parsed) parsed /\
     (forall z, List.filter (fun s => Z.eqb (s_order s) z) (sort_by_order parsed) =
                List.filter (fun s => Z.eqb (s_order s) z) parsed)) /\
  ((length (Norm._normalize_steps sort_other steps) <= 8)%nat /\
   map (fun kv => get kv "order") (Norm._normalize_steps sort_other steps) =
     map (fun z => Some (JNum z)) (zrange 1 (length (Norm._normalize_steps sort_other steps))) /\
   Norm._normalize_steps sort_other steps =
     Norm.renumber_dicts 1 (firstn 8 (Norm.normalize_sorted sort_other steps)) /\
   (forallb Norm.int_keyed (Norm.dicts (match steps with JArr l => l | _ => [] end)) = true ->
    Sorted (fun a b => (Norm.key_z a <= Norm.key_z b)%Z) (Norm.normalize_sorted sort_other steps) /\
    Permutation (Norm.normalize_sorted sort_other steps)
                (Norm.dicts (match steps with JArr l => l | _ => [] end)) /\
    (forall z, List.filter (fun kv => Z.eqb (Norm.key_z kv) z)
                 (Norm.normalize_sorted sort_other steps) =
               List.filter (fun kv => Z.eqb (Norm.key_z kv) z)
                 (Norm.dicts (match steps with JArr l => l | _ => [] end))))).
Proof.
  split.
  - destruct (String.eqb (Py.strip goal) EmptyString) eqn:Hb.
    + unfold get_goal_breakdown. rewrite Hb.
      exists [], [], [], []. simpl. repeat split; try constructor; lia.
    + rewrite get_goal_breakdown_nonblank by exact Hb.
      rewrite breakdown_steps_nonblank by exact Hb. cbv zeta. simpl fst.
      set (parsed := catch (first_pass jl (r (length (calls st)) (plan_call goal mt))) []).
      assert (Hfs : first_steps jl r goal mt st = sort_by_order parsed) by reflexivity.
      rewrite Hfs.
      assert (Hgen : forall added, exists l, Ok (renumber 1 (firstn 8 (sort_by_order parsed ++ added))) = Ok l /\
                (length l <= 8)%nat /\ map s_order l = zrange 1 (length l) /\
                l = renumber 1 (firstn 8 (sort_by_order parsed ++ added))).
      { intros added. eexists; split; [reflexivity|]. split; [|split; [rewrite renumber_orders, renumber_length; reflexivity|reflexivity]].
        rewrite renumber_length, length_firstn. lia. }
      assert (Hstab : forall z, List.filter (fun s => Z.eqb (s_order s) z) (sort_by_order parsed) =
                                List.filter (fun s => Z.eqb (s_order s) z) parsed)
        by (intros z; apply sort_by_stable).
      destruct (length (sort_by_order parsed) <? 8)%nat eqn:Hlt.
      * destruct (backfill_loop_backfilled
                    (concrete_steps jl (r (S (length (calls st)))
                       (backfill_call goal (sort_by_order parsed))))
                    (sort_by_order parsed)) as (added & Heq & Hbf).
        rewrite Heq. destruct (Hgen added) as (l & H1 & H2 & H3 & H4).
        exists l, parsed, (concrete_steps jl (r (S (length (calls st)))
                       (backfill_call goal (sort_by_order parsed)))), added.
        repeat split; try assumption.
        -- rewrite Hlt. reflexivity.
        -- apply sort_by_sorted.
        -- apply sort_by_perm.
      * destruct (Hgen []) as (l & H1 & H2 & H3 & H4). rewrite app_nil_r in H1, H4.
        exists l, parsed, [], []. rewrite app_nil_r. repeat split; try assumption.
        -- rewrite Hlt. reflexivity.
        -- constructor.
        -- apply sort_by_sorted.
        -- apply sort_by_perm.
  - split; [|split; [|split]].
    + unfold Norm._normalize_steps. rewrite renumber_dicts_length, length_firstn. lia.
    + unfold Norm._normalize_steps. rewrite renumber_dicts_orders, renumber_dicts_length.
      reflexivity.
    + reflexivity.
    + intros Hint. unfold Norm.normalize_sorted. rewrite Hint.
      split; [apply sort_by_sorted | split; [apply sort_by_perm|]].
      intros z. apply sort_by_stable.
Qed.

(** C1, a bug in the code: [get_goal_breakdown] is documented as
    excluding meta goal-definition steps, but a first-answer step with an
    empty title and the id ["set-goals"] passes the filter (which looks at
    the model's title and description only), and its returned title is
    filled in from the id afterwards, so the returned title and
    description match a meta pattern. *)
Lemma get_goal_breakdown_meta_title_cx :
  fst (get_goal_breakdown Json.loads_subset
         (Runs.model (Runs.jtext "{`steps`: [{`id`: `set-goals`, `title`: ``, `description`: `x`}]}")
                     EmptyString)
         "Get fit" 900 Runs.empty_state) =
    Ok [{| s_id := "set-goals"; s_title := "set-goals"; s_description := "x";
           s_expected_outcome := EmptyString; s_order := 1 |}] /\
  Meta._is_meta_goal_step (Py.lower ("set-goals" ++ " " ++ "x")) = true.
Proof. split; vm_compute; reflexivity. Qed.

(** C2 refuted: the first answer gives "Run" with order 5, the backfill
    answer "Swim" with order 1; the list before the cut has the original
    orders [5; 1], not sorted, and "Run" is returned first. *)
Lemma get_goal_breakdown_order_cx :
  let jl := Json.loads_subset in
  let r := Runs.model (Runs.jtext "{`steps`: [{`title`: `Run`, `order`: 5}]}")
                      (Runs.jtext "{`steps`: [{`title`: `Swim`, `order`: 1}]}") in
  map s_order (fst (breakdown_steps jl r "Get fit" 900 Runs.empty_state)) = [5; 1]%Z /\
  ~ Sorted (fun a b => (s_order a <= s_order b)%Z)
      (fst (breakdown_steps jl r "Get fit" 900 Runs.empty_state)) /\
  map s_title (ok_list (fst (get_goal_breakdown jl r "Get fit" 900 Runs.empty_state))) =
    ["Run"; "Swim"].
Proof.
  cbv zeta. split; [vm_compute; reflexivity|]. split; [|vm_compute; reflexivity].
  match goal with |- ~ Sorted _ ?l =>
    let v := eval vm_compute in l in change l with v end.
  intros H. inversion H as [|a l Hs Hhd]; subst.
  inversion Hhd; subst. simpl in *. lia.
Qed.

(** C3 refuted: two steps of the first answer titled "Run" and "run"
    are both returned. *)
Lemma get_goal_breakdown_duplicate_cx :
  fst (get_goal_breakdown Json.loads_subset
         (Runs.model (Runs.jtext "{`steps`: [{`title`: `Run`}, {`title`: `run`}]}") EmptyString)
         "Get fit" 900 Runs.empty_state) =
    Ok [{| s_id := "run"; s_title := "Run"; s_description := EmptyString;
           s_expected_outcome := EmptyString; s_order := 1 |};
        {| s_id := "run"; s_title := "run"; s_description := EmptyString;
           s_expected_outcome := EmptyString; s_order := 2 |}] /\
  Py.lower "Run" = Py.lower "run".
Proof. split; vm_compute; reflexivity. Qed.

End Breakdown.

(** ** The TTL cache: [get_coaching_suggestion] and [_cache] *)

Module CacheFacts.
Import Json AI.

Lemma breakdown_cache jl r g mt st :
  cache (snd (get_goal_breakdown jl r g mt st)) = cache st.
Proof.
  unfold get_goal_breakdown. destruct (String.eqb _ _) eqn:E; [reflexivity|].
  destruct (breakdown_steps jl r g mt st) as [s st2] eqn:B. simpl.
  rewrite Breakdown.breakdown_steps_nonblank in B by exact E.
  cbv zeta in B. destruct (_ <? 8)%nat; inversion B; reflexivity.
Qed.

Lemma string_length_append (s1 s2 : string) :
  String.length (s1 ++ s2) = (String.length s1 + String.length s2)%nat.
Proof. induction s1 as [|c s1 IH]; simpl; [reflexivity|]. rewrite IH. reflexivity. Qed.

Section Keep.
Variables (jl : string -> option json) (r : nat -> call -> string)
          (sha : string -> string) (ttl : Z).
Hypothesis Hlen : forall x, String.length (sha x) = 64%nat.

Lemma run_op_keeps key e v op st :
  String.length key = 64%nat ->
  cache st !! key = Some (e, v) ->
  op_before e op ->
  cache (run_op jl r sha ttl op st) !! key = Some (e, v).
Proof.
  intros Hk Hst Hb. destruct op as [ctx now | g mt | g et jn d now]; simpl.
  - unfold get_coaching_suggestion.
    destruct (cache_hit st (cache_key sha ctx) now) eqn:Hh; [exact Hst|].
    simpl. rewrite lookup_insert_ne; [exact Hst|].
    intros Heq. rewrite Heq in Hh. unfold cache_hit in Hh. rewrite Hst in Hh.
    specialize (Hb now eq_refl). apply Z.ltb_lt in Hb. rewrite Hb in Hh. discriminate.
  - rewrite breakdown_cache. exact Hst.
  - unfold get_entry_evaluation.
    destruct (cache_hit _ _ now) eqn:Hh; [exact Hst|].
    simpl. rewrite lookup_insert_ne; [exact Hst|].
    intros Heq. rewrite <- Heq, string_length_append, Hlen in Hk. simpl in Hk. lia.
Qed.

Lemma run_ops_keeps key e v ops st :
  String.length key = 64%nat ->
  cache st !! key = Some (e, v) ->
  Forall (op_before e) ops ->
  cache (run_ops jl r sha ttl ops st) !! key = Some (e, v).
Proof.
  intros Hk. revert st. induction ops as [|op ops IH]; intros st Hst Hops; [exact Hst|].
  inversion Hops; subst. unfold run_ops; simpl. apply IH; [|assumption].
  apply run_op_keeps; assumption.
Qed.

End Keep.

Lemma run_op_dom jl r sha ttl op st :
  dom (cache st) ⊆ dom (cache (run_op jl r sha ttl op st)).
Proof.
  destruct op as [ctx now | g mt | g et jn d now]; simpl.
  - unfold get_coaching_suggestion. destruct (cache_hit _ _ _); simpl; [reflexivity|].
    rewrite dom_insert_L. set_solver.
  - rewrite breakdown_cache. reflexivity.
  - unfold get_entry_evaluation. destruct (cache_hit _ _ _); simpl; [reflexivity|].
    rewrite dom_insert_L. set_solver.
Qed.

(** C5 (amended): with client calls run one at a time (each call,
    its model call included, ends before the next begins), when a call
    of [get_coaching_suggestion] at [t1] misses the cache, so that it
    asks the model and stores the answer until [t1 + CACHE_TTL_SECONDS],
    a later call with an equal context at [t2 < t1 + CACHE_TTL_SECONDS],
    after any client operations at times before that expiry, returns the
    stored answer and leaves the state as it is: no model call.  Hex
    digests have 64 characters. *)
Theorem coaching_suggestion_ttl_hit jl r sha ttl ctx t1 t2 ops st
  (Hlen : forall x, String.length (sha x) = 64%nat)
  (Hmiss : cache_hit st (cache_key sha ctx) t1 = None)
  (Hops : Forall (op_before (t1 + ttl)) ops)
  (Ht2 : (t2 < t1 + ttl)%Z) :
  let first := get_coaching_suggestion r sha ttl ctx t1 st in
  let st' := run_ops jl r sha ttl ops (snd first) in
  get_coaching_suggestion r sha ttl ctx t2 st' = (fst first, st').
Proof.
  cbv zeta.
  assert (H1 : cache (snd (get_coaching_suggestion r sha ttl ctx t1 st))
                 !! cache_key sha ctx =
               Some ((t1 + ttl)%Z, fst (get_coaching_suggestion r sha ttl ctx t1 st))).
  { unfold get_coaching_suggestion at 1 2. rewrite Hmiss. simpl.
    apply lookup_insert_eq. }
  eapply run_ops_keeps in H1; [| exact Hlen | apply Hlen | exact Hops].
  unfold get_coaching_suggestion at 1. unfold cache_hit at 1. rewrite H1.
  apply Z.ltb_lt in Ht2. rewrite Ht2. reflexivity.
Qed.

(** C5 refuted: with a ten-minute TTL, a call at 0 stores its answer,
    a call at 500 is served from the cache, and a call at 700, 200
    seconds after the one at 500, asks the model again and returns a new
    answer: the entry expires [CACHE_TTL_SECONDS] after it was stored. *)
Lemma coaching_suggestion_ttl_cx :
  let ctx := mk_ctx (Some "Run a marathon") "[07:00:00] ran 5k" None 350 in
  let sha := fun s : string => s in
  let r := fun (n : nat) (_ : call) => Py.str_nat n in
  let c0 := get_coaching_suggestion r sha 600 ctx 0 Runs.empty_state in
  let c500 := get_coaching_suggestion r sha 600 ctx 500 (snd c0) in
  let c700 := get_coaching_suggestion r sha 600 ctx 700 (snd c500) in
  fst c500 = "0" /\ length (calls (snd c500)) = 1%nat /\
  fst c700 = "1" /\ length (calls (snd c700)) = 2%nat.
Proof. vm_compute. repeat split. Qed.

(** Run without another call in between, the two parts make up
    [get_coaching_suggestion]. *)
Lemma suggest_begin_finish r sha ttl ctx now st :
  get_coaching_suggestion r sha ttl ctx now st =
  match suggest_begin sha ctx now st with
  | inl v => (v, st)
  | inr p => suggest_finish r ttl p st
  end.
Proof.
  unfold get_coaching_suggestion, suggest_begin, suggest_finish.
  destruct (cache_hit st (cache_key sha ctx) now); [reflexivity|].
  destruct (call_model r _ st). reflexivity.
Qed.

(** C5 with overlapping calls: call A at 0 and call B at 100, same
    context, both miss and wait on the model.  B finishes first and
    stores its answer until 700; A finishes next and overwrites it with
    its own answer until 600.  A call at 650, within the TTL of B's call
    that missed and stored, misses again and asks the model a third
    time. *)
Lemma coaching_suggestion_overlap_cx :
  let ctx := mk_ctx (Some "Run a marathon") "[07:00:00] ran 5k" None 350 in
  let sha := fun s : string => s in
  let r := fun (n : nat) (_ : call) => Py.str_nat n in
  let s0 := Runs.empty_state in
  match suggest_begin sha ctx 0 s0, suggest_begin sha ctx 100 s0 with
  | inr a, inr b =>
      let '(vB, s1) := suggest_finish r 600 b s0 in
      let '(vA, s2) := suggest_finish r 600 a s1 in
      cache_hit s1 (cache_key sha ctx) 650 = Some vB /\
      vA <> vB /\
      suggest_begin sha ctx 650 s2 = inr (cache_key sha ctx, 650%Z,
        CallCoach "Run a marathon" "[07:00:00] ran 5k" 350) /\
      fst (get_coaching_suggestion r sha 600 ctx 650 s2) <> vB /\
      length (calls (snd (get_coaching_suggestion r sha 600 ctx 650 s2))) = 3%nat
  | _, _ => False
  end.
Proof. vm_compute. repeat split; discriminate. Qed.

(** C6: no operation of the client removes a key of [_cache]: the keys
    after any sequence of [get_coaching_suggestion],
    [get_goal_breakdown] and [get_entry_evaluation] calls include the
    keys before it. *)
Theorem cache_keys_never_removed jl r sha ttl ops st :
  dom (cache st) ⊆ dom (cache (run_ops jl r sha ttl ops st)).
Proof.
  revert st. induction ops as [|op ops IH]; intros st; [reflexivity|].
  unfold run_ops; simpl. etransitivity; [apply (run_op_dom jl r sha ttl op)|].
  apply IH.
Qed.

End CacheFacts.

(** ** The per-day entry documents and the daily evaluations *)

Module DbFacts.
Import Entries Evals.

Lemma set_text_keys db id t :
  map day_key (docs (set_text db id t)) = map day_key (docs db).
Proof.
  unfold set_text; simpl. rewrite map_map. apply map_ext. intros x.
  destruct (Nat.eqb _ _); reflexivity.
Qed.

Lemma update_entry_keys db id user text :
  map day_key (docs (update_entry db id user text)) = map day_key (docs db).
Proof.
  unfold update_entry. destruct (String.eqb _ _); [reflexivity|]. simpl.
  rewrite map_map. apply map_ext. intros x. destruct (_ && _); reflexivity.
Qed.

Lemma delete_first_in id user l x :
  In x (delete_first id user l) -> In x l.
Proof.
  induction l as [|e l IH]; simpl; [tauto|].
  destruct (_ && _); simpl; [tauto|]. intros [H|H]; [left; exact H|right; auto].
Qed.

Lemma delete_first_nodup id user l :
  List.NoDup (map day_key l) -> List.NoDup (map day_key (delete_first id user l)).
Proof.
  induction l as [|e l IH]; simpl; [tauto|]. intros H.
  inversion H as [|x l' Hx Hnd]; subst.
  destruct (_ && _); [exact Hnd|]. simpl. constructor; [|auto].
  intros Hin. apply Hx. apply in_map_iff in Hin as (y & Hy & Hin).
  apply in_map_iff. exists y. split; [exact Hy|]. eapply delete_first_in; eauto.
Qed.

Lemma find_entry_none_keys db j u d :
  find_entry db j u d = None -> ~ In (j, u, d) (map day_key (docs db)).
Proof.
  intros Hf Hin. apply in_map_iff in Hin as (e & He & Hin).
  pose proof (find_none _ _ Hf e Hin) as Hm. unfold matches, day_key in *.
  injection He as E1 E2 E3. rewrite E1, E2, E3, !String.eqb_refl in Hm. discriminate.
Qed.


Lemma filter_filter_le {A} (f g : A -> bool) l :
  length (List.filter f (List.filter g l)) <= length (List.filter f l).
Proof.
  induction l as [|a l IH]; simpl; [lia|].
  destruct (g a); simpl; destruct (f a); simpl; lia.
Qed.

Lemma filter_filter_nil {A} (f g : A -> bool) l :
  (forall d, In d l -> f d = true -> g d = false) -> List.filter f (List.filter g l) = [].
Proof.
  induction l as [|a l IH]; simpl; [reflexivity|]. intros H.
  destruct (g a) eqn:Hg; simpl.
  - destruct (f a) eqn:Hf; [rewrite (H a (or_introl eq_refl) Hf) in Hg; discriminate|].
    apply IH. intros; apply H; auto.
  - apply IH. intros; apply H; auto.
Qed.

Lemma filter_unique {A} (f : A -> bool) l d d' :
  length (List.filter f l) <= 1 -> In d l -> f d = true -> In d' l -> f d' = true -> d = d'.
Proof.
  intros Hlen Hd Hfd Hd' Hfd'.
  assert (Id : In d (List.filter f l)) by (apply List.filter_In; auto).
  assert (Id' : In d' (List.filter f l)) by (apply List.filter_In; auto).
  destruct (List.filter f l) as [|x [|y l']]; simpl in *; try lia; try tauto.
  destruct Id as [<-|[]], Id' as [<-|[]]. reflexivity.
Qed.

(** C8, a bug in the code: the day's entry is meant to be a single
    document aggregated by [create_entry] (main.py, [coach_evaluate_entry]),
    but two requests for the same day, with the same string date, that
    both run their [find_one] before either writes both insert a
    document, so the database ends with two documents for one
    [(journal_id, user_id, date)]. *)
Lemma create_entry_race_cx :
  let r := mk_req "j1" "u1" "ran 5k" (Some "10/18/2026") (Some "07:00:00") in
  let s0 := {| db := {| docs := []; next_id := 0 |}; in_flight := [] |} in
  one_per_day (db s0) /\
  exists s, rtc server_step s0 s /\ ~ one_per_day (db s).
Proof.
  cbv zeta. split; [constructor|].
  set (p := {| p_journal := "j1"; p_user := "u1"; p_date := "10/18/2026";
               p_line := "[07:00:00] ran 5k"; p_existing := None |}).
  eexists. split.
  - eapply rtc_l; [apply (step_lookup _ (mk_req "j1" "u1" "ran 5k" (Some "10/18/2026")
                     (Some "07:00:00")) "01/01/2026" "00:00:00" p); reflexivity|].
    eapply rtc_l; [apply (step_lookup _ (mk_req "j1" "u1" "ran 5k" (Some "10/18/2026")
                     (Some "07:00:00")) "01/01/2026" "00:00:00" p); reflexivity|].
    eapply rtc_l; [apply (step_write _ [] p [p]); reflexivity|].
    eapply rtc_l; [apply (step_write _ [] p []); reflexivity|].
    apply rtc_refl.
  - unfold one_per_day. cbn. intros H. inversion H as [|x l Hx Hnd].
    apply Hx. left. reflexivity.
Qed.

(** C10 (amended): run on its own, [coach_evaluate_entry] keeps at most
    one evaluation document per [(journal_id, user_id)]; when today's
    document exists it returns its text and changes nothing (no model
    call); when it evaluates, exactly one document for the pair remains
    afterwards: today's, with the new evaluation. *)
Theorem coach_evaluate_entry_daily r sha ttl evs edb ai jr j u t now
  (Hinv : one_per_journal evs) :
  let res := coach_evaluate_entry r sha ttl evs edb ai jr j u t now in
  one_per_journal (snd (fst res)) /\
  (forall d, In d evs -> of_pair j u d = true -> v_date d = iso_today t ->
     res = (Some (v_text d), evs, ai)) /\
  (forall p, eval_lookup evs edb j u t = Evaluate p ->
     exists v, fst (fst res) = Some v /\
       List.filter (of_pair j u) (snd (fst res)) =
         [{| v_journal := j; v_user := u; v_date := iso_today t; v_text := v |}]).
Proof.
  cbv zeta. unfold coach_evaluate_entry.
  destruct (eval_lookup evs edb j u t) as [text| |p] eqn:Hl.
  - split; [exact Hinv|]. split; [|discriminate].
    intros d Hd Hp Hdate. unfold eval_lookup in Hl.
    destruct (find _ evs) as [d'|] eqn:Hf; [|destruct (find _ (docs edb)); discriminate].
    injection Hl as <-. apply find_some in Hf as [Hd' Hf].
    apply andb_prop in Hf as [Hp' _].
    rewrite (filter_unique _ _ d d' (Hinv j u) Hd Hp Hd' Hp'). reflexivity.
  - split; [exact Hinv|]. split; [|discriminate].
    intros d Hd Hp Hdate. unfold eval_lookup in Hl.
    destruct (find _ evs) eqn:Hf; [discriminate|].
    pose proof (find_none _ _ Hf d Hd) as Hn. simpl in Hn.
    rewrite Hp, Hdate, String.eqb_refl in Hn. discriminate.
  - unfold eval_lookup in Hl.
    destruct (find _ evs) as [d'|] eqn:Hf; [discriminate|].
    destruct (find _ (docs edb)) as [e|]; [|discriminate]. injection Hl as <-.
    destruct (AI.get_entry_evaluation _ _ _ _ _ _ _ _ _) as [v ai'] eqn:Hv. simpl.
    assert (Hnil : List.filter (of_pair j u)
        (List.filter (fun d => negb (of_pair j u d && negb (String.eqb (v_date d) (iso_today t))))
           evs) = []).
    { apply filter_filter_nil. intros d Hd Hp.
      pose proof (find_none _ _ Hf d Hd) as Hn. simpl in Hn. rewrite Hp in Hn.
      simpl in Hn. rewrite Hp, Hn. reflexivity. }
    split; [|split].
    + intros j' u'. unfold eval_write; simpl. rewrite List.filter_app, length_app. simpl.
      destruct (of_pair j' u' {| v_journal := j; v_user := u; v_date := iso_today t;
                                 v_text := v |}) eqn:Eo; simpl.
      * unfold of_pair in Eo; simpl in Eo. apply andb_prop in Eo as [Ej Eu].
        apply String.eqb_eq in Ej, Eu. subst. rewrite Hnil. simpl. lia.
      * pose proof (filter_filter_le (of_pair j' u')
          (fun d => negb (of_pair j u d && negb (String.eqb (v_date d) (iso_today t)))) evs).
        pose proof (Hinv j' u'). lia.
    + intros d Hd Hp Hdate. pose proof (find_none _ _ Hf d Hd) as Hn. simpl in Hn.
      rewrite Hp, Hdate, String.eqb_refl in Hn. discriminate.
    + intros p Hp. injection Hp as <-. exists v. split; [reflexivity|].
      unfold eval_write; simpl. rewrite List.filter_app, Hnil. simpl.
      unfold of_pair at 1; simpl. rewrite !String.eqb_refl. reflexivity.
Qed.

(** C10 refuted: two requests that both find no evaluation for today
    and are both suspended at the model call each insert one, so the
    pair ends with two evaluation documents. *)
Lemma coach_evaluate_entry_race_cx :
  let t := mk_today "2026-10-18" "10/18/2026" "10/18/2026" in
  let s0 := {| evals := [];
               entries := {| docs := [mk_entry 0 "j1" "u1" "10/18/2026" "[07:00:00] ran 5k"];
                             next_id := 1 |};
               suspended := [] |} in
  one_per_journal (evals s0) /\
  exists s, rtc eval_step s0 s /\ length (List.filter (of_pair "j1" "u1") (evals s)) = 2%nat.
Proof.
  cbv zeta. split; [intros j u; simpl; lia|].
  set (p := {| pe_journal := "j1"; pe_user := "u1"; pe_date := "2026-10-18";
               pe_entry_text := "[07:00:00] ran 5k" |}).
  eexists. split.
  - eapply rtc_l; [apply (eval_begin _ "j1" "u1"
                     (mk_today "2026-10-18" "10/18/2026" "10/18/2026") p); reflexivity|].
    eapply rtc_l; [apply (eval_begin _ "j1" "u1"
                     (mk_today "2026-10-18" "10/18/2026" "10/18/2026") p); reflexivity|].
    eapply rtc_l; [apply (eval_finish _ [] p [p] "A"); reflexivity|].
    eapply rtc_l; [apply (eval_finish _ [] p [] "B"); reflexivity|].
    apply rtc_refl.
  - reflexivity.
Qed.

End DbFacts.

(* ================================================================== *)
(** ** Further properties of the code *)
(* ================================================================== *)

Module DaysFacts.
Import DaysSince.

(** For every difference of [us] microseconds, the line daysSince.py
    prints has hours below 24 and minutes and seconds below 60, and
    [days * 86400 + hours * 3600 + minutes * 60 + seconds] is the whole
    number of seconds of the difference (rounded down, also when it is
    negative). *)
Theorem tick_fields (us : Z) :
  let '(d, h, m, s) := tick us in
  (0 <= h < 24)%Z /\ (0 <= m < 60)%Z /\ (0 <= s < 60)%Z /\
  (d * 86400 + h * 3600 + m * 60 + s = us / 1000000)%Z.
Proof.
  unfold tick, timedelta_fields.
  set (t := (us / 1000000)%Z).
  pose proof (Z.mod_pos_bound t 86400 ltac:(lia)) as B1.
  pose proof (Z.div_mod t 86400 ltac:(lia)) as E1.
  set (r := (t mod 86400)%Z) in *.
  pose proof (Z.mod_pos_bound r 3600 ltac:(lia)) as B2.
  pose proof (Z.div_mod r 3600 ltac:(lia)) as E2.
  set (q := (r mod 3600)%Z) in *.
  pose proof (Z.mod_pos_bound q 60 ltac:(lia)) as B3.
  pose proof (Z.div_mod q 60 ltac:(lia)) as E3.
  pose proof (Z.div_pos r 3600 ltac:(lia) ltac:(lia)).
  pose proof (Z.div_lt_upper_bound r 3600 24 ltac:(lia) ltac:(lia)).
  pose proof (Z.div_pos q 60 ltac:(lia) ltac:(lia)).
  pose proof (Z.div_lt_upper_bound q 60 60 ltac:(lia) ltac:(lia)).
  repeat split; lia.
Qed.
End DaysFacts.

Module PageFacts.
Import Pages.

Lemma has_char_list (c : ascii) (s : string) :
  has_char c s = false -> ~ In c (list_ascii_of_string s).
Proof.
  induction s as [|x r IH]; simpl; [tauto|].
  intros H [E|E]; apply orb_false_iff in H as [H1 H2].
  - subst; rewrite Ascii.eqb_refl in H1; discriminate.
  - exact (IH H2 E).
Qed.

Lemma rstrip_Z_id (s : string) : has_char "Z"%char s = false -> rstrip_Z s = s.
Proof.
  intros H. apply has_char_list in H. unfold rstrip_Z.
  assert (Py.lstrip_by (fun c => Ascii.eqb c "Z"%char) (rev (list_ascii_of_string s))
          = rev (list_ascii_of_string s)) as ->.
  { destruct (rev (list_ascii_of_string s)) as [|x l] eqn:E; [reflexivity|].
    simpl. destruct (Ascii.eqb x "Z"%char) eqn:Ex; [|reflexivity].
    apply Ascii.eqb_eq in Ex; subst. exfalso; apply H, in_rev; rewrite E; left; reflexivity. }
  rewrite rev_involutive. apply string_of_list_ascii_of_string.
Qed.

Lemma before_plus_id (s : string) : has_char "+"%char s = false -> before_plus s = s.
Proof.
  induction s as [|x r IH]; simpl; [reflexivity|].
  intros H; apply orb_false_iff in H as [H1 H2]. rewrite H1, IH by exact H2. reflexivity.
Qed.

Lemma has_char_replace_space (s : string) :
  has_char "Z"%char (replace_space s) = has_char "Z"%char s.
Proof.
  induction s as [|x r IH]; simpl; [reflexivity|].
  rewrite IH. destruct (Ascii.eqb x " "%char) eqn:E; [|reflexivity].
  apply Ascii.eqb_eq in E; subst; reflexivity.
Qed.

Lemma has_char_app (c : ascii) (a b : string) :
  has_char c (a ++ b) = has_char c a || has_char c b.
Proof.
  induction a as [|x r IH]; simpl; [reflexivity|]. rewrite IH, orb_assoc; reflexivity.
Qed.

Lemma endswith_Z_has (s : string) : endswith_Z s = true -> has_char "Z"%char s = true.
Proof.
  unfold endswith_Z. intros H.
  destruct (rev (list_ascii_of_string s)) as [|x l] eqn:E; [discriminate|].
  apply Ascii.eqb_eq in H; subst.
  destruct (has_char "Z"%char s) eqn:Hs; [reflexivity|].
  exfalso; apply (has_char_list _ _ Hs), in_rev; rewrite E; left; reflexivity.
Qed.

Lemma normalize_created_at_eq (c : string) :
  normalize_created_at c =
  if has_char "Z"%char c || has_char "+"%char c then c else (replace_space c ++ "Z")%string.
Proof.
  unfold normalize_created_at.
  destruct (has_char "Z"%char c) eqn:HZ, (has_char "+"%char c) eqn:HP; simpl; try reflexivity.
  rewrite rstrip_Z_id, before_plus_id by assumption.
  destruct (endswith_Z (replace_space c)) eqn:E; [|reflexivity].
  apply endswith_Z_has in E; rewrite has_char_replace_space, HZ in E; discriminate.
Qed.

(** [journal_detail_page] with a stored, non-empty [created_at]: a
    value holding ['Z'] or ['+'] is shown as stored; any other value is
    shown with its spaces replaced by ['T'] and a ['Z'] appended.  The
    shown value always holds ['Z'] or ['+'], so normalising it again
    changes nothing. *)
Theorem page_created_at_stored (c oid_time_iso : string) (Hc : c <> EmptyString) :
  let shown := page_created_at (Some c) oid_time_iso in
  shown = (if has_char "Z"%char c || has_char "+"%char c then c
           else (replace_space c ++ "Z")%string) /\
  has_char "Z"%char shown || has_char "+"%char shown = true /\
  normalize_created_at shown = shown.
Proof.
  simpl. unfold page_created_at.
  destruct (String.eqb c EmptyString) eqn:E; [apply String.eqb_eq in E; contradiction|].
  rewrite normalize_created_at_eq.
  destruct (has_char "Z"%char c || has_char "+"%char c) eqn:H.
  - rewrite normalize_created_at_eq, H. auto.
  - assert (has_char "Z"%char (replace_space c ++ "Z") = true) as HZ.
    { rewrite has_char_app; simpl; rewrite orb_true_r; reflexivity. }
    rewrite normalize_created_at_eq, HZ; simpl. auto.
Qed.

End PageFacts.

Module RouteFacts.
Import Routes.

Lemma dispatch_from_handled (rs : list route) (m p : string) (b : bool) (h : handler) :
  dispatch_from rs m p b = Handled h ->
  option_map route_handler (find (full_match m p) rs) = Some h.
Proof.
  revert b. induction rs as [|r rs IH]; intros b; simpl.
  - destruct b; discriminate.
  - destruct r as [ms tpl h'|pre h']; simpl.
    + destruct (path_matches tpl p), (existsb (String.eqb m) ms); simpl;
        try (intros E; injection E as <-; reflexivity); apply IH.
    + destruct (mount_matches pre p); simpl;
        [intros E; injection E as <-; reflexivity | apply IH].
Qed.

Lemma find_app_cons {A} (f : A -> bool) (l1 l2 : list A) (x y : A) :
  find f (l1 ++ x :: l2) = Some y ->
  In y l1 \/ y = x \/ (f x = false /\ In y l2 /\ f y = true).
Proof.
  induction l1 as [|a l1 IH]; simpl.
  - destruct (f x) eqn:E.
    + intros H; injection H as <-; auto.
    + intros H; apply find_some in H as [H1 H2]; auto.
  - destruct (f a); [intros H; injection H as <-; auto|].
    intros H; destruct (IH H) as [?|?]; auto.
Qed.

Lemma me_matches_user (m p : string) :
  full_match m p (Endpoint ["GET"] "/api/journal/me" get_my_journal) = true ->
  full_match m p (Endpoint ["GET"] "/api/journal/{user_id}" get_user_journal) = true.
Proof.
  unfold full_match, path_matches.
  change (split_slash "/api/journal/me") with [""; "api"; "journal"; "me"]%string.
  change (split_slash "/api/journal/{user_id}") with [""; "api"; "journal"; "{user_id}"]%string.
  intros H; apply andb_prop in H as [H Hm]; rewrite Hm, andb_true_r.
  revert H. generalize (split_slash p) as ps. intros ps.
  destruct ps as [|a [|b [|c [|d [|e l]]]]]; cbn [segs_match is_param negb]; rewrite ?andb_false_r; try discriminate.
  rewrite !andb_true_r, !andb_true_iff. intros (H1 & H2 & H3 & H4).
  apply String.eqb_eq in H4; subst d. auto.
Qed.

Lemma routes_split :
  routes = firstn 17 routes
           ++ Endpoint ["GET"] "/api/journal/{user_id}" get_user_journal
           :: skipn 18 routes.
Proof. vm_compute; reflexivity. Qed.

Lemma routes_before_user (r : route) :
  In r (firstn 17 routes) -> route_handler r <> get_my_journal.
Proof.
  intros Ir Hr. simpl in Ir.
  repeat (destruct Ir as [<-|Ir]; [discriminate Hr|]). contradiction.
Qed.

Lemma routes_after_user (r : route) :
  In r (skipn 18 routes) -> route_handler r = get_my_journal ->
  r = Endpoint ["GET"] "/api/journal/me" get_my_journal.
Proof.
  intros Ir Hr. simpl in Ir.
  repeat (destruct Ir as [<-|Ir]; [try discriminate Hr; reflexivity|]). contradiction.
Qed.

Lemma dispatch_eq (method path : string) : dispatch method path = dispatch_from routes method path false.
Proof. reflexivity. Qed.
Lemma find_never_my_journal (method path : string) :
  option_map route_handler (find (full_match method path) routes) <> Some get_my_journal.
Proof.
  intros H.
  destruct (find (full_match method path) routes) as [y|] eqn:F; [|discriminate].
  injection H as Hy. rewrite routes_split in F.
  destruct (find_app_cons _ _ _ _ _ F) as [I|[->|(Hx & I & Hf)]].
  - exact (routes_before_user y I Hy).
  - discriminate.
  - rewrite (routes_after_user y I Hy) in Hf. apply me_matches_user in Hf. rewrite Hf in Hx; discriminate.
Qed.
(** No request reaches [get_my_journal]: [GET /api/journal/me] is
    matched first by the earlier route [GET /api/journal/{user_id}], and
    with any other method the [me] route does not match either. *)
Theorem get_my_journal_unreachable (method path : string) :
  dispatch method path <> Handled get_my_journal.
Proof.
  rewrite dispatch_eq. intros H. exact (find_never_my_journal _ _ (dispatch_from_handled _ _ _ _ _ H)).
Qed.
Lemma find_handled (rs : list route) (m p : string) (b : bool) (r : route) :
  find (full_match m p) rs = Some r -> dispatch_from rs m p b = Handled (route_handler r).
Proof.
  revert b. induction rs as [|r' rs IH]; intros b; simpl; [discriminate|].
  destruct r' as [ms tpl h|pre h]; simpl.
  - destruct (path_matches tpl p), (existsb (String.eqb m) ms); simpl;
      try (intros E; injection E as <-; reflexivity); apply IH.
  - destruct (mount_matches pre p); simpl; [intros E; injection E as <-; reflexivity|apply IH].
Qed.

Lemma str_append_nil_r (s : string) : (s ++ EmptyString)%string = s.
Proof. induction s as [|c s IH]; [reflexivity|exact (f_equal (String c) IH)]. Qed.

Lemma str_append_cons (c : ascii) (a b : string) : (String c a ++ b)%string = String c (a ++ b).
Proof. reflexivity. Qed.

Lemma str_append_nil_l (b : string) : (EmptyString ++ b)%string = b.
Proof. reflexivity. Qed.

Lemma str_append_assoc (a b c : string) : ((a ++ b) ++ c)%string = (a ++ (b ++ c))%string.
Proof. induction a as [|x a IH]; [reflexivity|exact (f_equal (String x) IH)]. Qed.

Lemma split_slash_from_noslash (s cur : string) :
  Pages.has_char "/"%char s = false -> split_slash_from s cur = [(cur ++ s)%string].
Proof.
  revert cur. induction s as [|c r IH]; intros cur H; simpl in *.
  - rewrite str_append_nil_r. reflexivity.
  - apply orb_false_iff in H as [H1 H2]. rewrite H1, IH by exact H2.
    rewrite str_append_assoc. reflexivity.
Qed.

Lemma split_slash_journal (seg : string) :
  Pages.has_char "/"%char seg = false ->
  split_slash ("/api/journal/" ++ seg) = [""; "api"; "journal"; seg]%string.
Proof.
  intros H. unfold split_slash. rewrite !str_append_cons, str_append_nil_l. simpl.
  rewrite split_slash_from_noslash by exact H. reflexivity.
Qed.

(** A [GET] of [/api/journal/<seg>] for any non-empty segment without
    ['/'] (["me"] included) is handled by [get_user_journal]. *)
Theorem get_journal_segment_routes_to_user (seg : string)
    (Hne : seg <> EmptyString) (Hns : Pages.has_char "/"%char seg = false) :
  dispatch "GET" ("/api/journal/" ++ seg) = Handled get_user_journal.
Proof.
  rewrite dispatch_eq.
  apply (find_handled _ _ _ _ (Endpoint ["GET"] "/api/journal/{user_id}" get_user_journal)).
  assert (String.eqb seg EmptyString = false) as E.
  { destruct (String.eqb seg EmptyString) eqn:E; [apply String.eqb_eq in E; contradiction|reflexivity]. }
  unfold routes. cbn [find]. unfold full_match, path_matches.
  rewrite split_slash_journal by exact Hns.
  repeat match goal with
         | |- context [split_slash ?t] =>
             let v := eval vm_compute in (split_slash t) in change (split_slash t) with v
         end.
  cbn [segs_match is_param]. rewrite E. reflexivity.
Qed.
End RouteFacts.

Module JournalFacts.
Import Journals.

Lemma add_journal_entry_oid data cookie t db :
  all_oid db -> all_oid (snd (add_journal_entry data cookie t db)).
Proof.
  unfold add_journal_entry, all_oid. intros H.
  destruct (or_value _ _), (Json.get data "date"); simpl; auto.
  destruct (negb _ || negb _); simpl; auto.
  apply List.Forall_app; split; [exact H|repeat constructor].
Qed.

Lemma update_first_oid (jid : string) f l :
  List.Forall (fun d => match j_id d with ObjectIdV _ => True | StrIdV _ => False end) l ->
  update_first (StrIdV jid) f l = None.
Proof.
  induction l as [|d l IH]; intros H; simpl; [reflexivity|].
  inversion H as [|? ? Hd Hl]; subst.
  destruct (j_id d); [|contradiction]. simpl. rewrite IH by exact Hl. reflexivity.
Qed.

Lemma update_journal_oid jid data db :
  all_oid db ->
  snd (update_journal jid data db) = db /\
  (fst (update_journal jid data db) = inl 400%nat \/ fst (update_journal jid data db) = inl 404%nat).
Proof.
  unfold update_journal. intros H.
  destruct (_ ++ _) as [|kv l]; simpl; auto.
  rewrite update_first_oid by exact H. simpl. auto.
Qed.

(** Starting from an empty journals collection, in any run of
    [add_journal_entry] and [update_journal] requests, every
    [update_journal] answers 400 or 404: the journals created get ObjectId
    ids, and [update_journal] filters on the path's string. *)
Theorem update_journal_never_matches (ops : list jop) :
  List.Forall (fun r => r = inl 400%nat \/ r = inl 404%nat) (fst (run_jops ops empty_journals)).
Proof.
  assert (forall db, all_oid db ->
            List.Forall (fun r => r = inl 400%nat \/ r = inl 404%nat) (fst (run_jops ops db))
            /\ all_oid (snd (run_jops ops db))) as G.
  { induction ops as [|op ops IH]; intros db H; simpl; [split; auto|].
    destruct op as [data cookie t|jid data].
    - apply IH, add_journal_entry_oid, H.
    - destruct (update_journal_oid jid data db H) as [E1 E2].
      destruct (update_journal jid data db) as [r db1] eqn:E; simpl in *. subst db1.
      destruct (IH db H) as [F1 F2].
      destruct (run_jops ops db) as [rs db2]; simpl in *. split; auto. }
  apply G. constructor.
Qed.

End JournalFacts.

Module UserFacts.
Import Users.




End UserFacts.

Module SuggestFacts.
Import Suggest.

Lemma count_nl_app (a b : string) : count_nl (a ++ b) = count_nl a + count_nl b.
Proof.
  induction a as [|c a IH]; [reflexivity|].
  change (count_nl (String c (a ++ b)) = count_nl (String c a) + count_nl b).
  simpl. rewrite IH. lia.
Qed.

Lemma count_nl_of_list (l : list ascii) :
  ~ In "010"%char l -> count_nl (string_of_list_ascii l) = 0.
Proof.
  induction l as [|c l IH]; simpl; [reflexivity|].
  intros H. destruct (Ascii.eqb c "010"%char) eqn:E.
  - apply Ascii.eqb_eq in E; subst; tauto.
  - rewrite IH by tauto. reflexivity.
Qed.

Lemma splitlines_from_no_nl (n : nat) (l cur : list ascii) :
  length l <= n -> ~ In "010"%char cur ->
  List.Forall (fun s => count_nl s = 0) (splitlines_from l cur).
Proof.
  revert l cur. induction n as [|n IH]; intros l cur Hn Hc.
  - destruct l; [|simpl in Hn; lia]. simpl.
    destruct cur; [constructor|]. constructor; [|constructor].
    apply count_nl_of_list. rewrite <- in_rev. exact Hc.
  - destruct l as [|c l]; simpl.
    + destruct cur; [constructor|]. constructor; [|constructor].
      apply count_nl_of_list. rewrite <- in_rev. exact Hc.
    + simpl in Hn.
      assert (count_nl (string_of_list_ascii (rev cur)) = 0) as Hr.
      { apply count_nl_of_list. rewrite <- in_rev. exact Hc. }
      destruct (Ascii.eqb c "013"%char) eqn:E13.
      * destruct l as [|c' l'].
        -- constructor; [exact Hr|]. apply IH; simpl; [lia|tauto].
        -- simpl in Hn. destruct (Ascii.eqb c' "010"%char);
             constructor; (exact Hr || (apply IH; simpl; [lia|tauto])).
      * destruct (line_break c) eqn:Eb.
        -- constructor; [exact Hr|]. apply IH; simpl; [lia|tauto].
        -- apply IH; [lia|]. simpl. intros [E|E]; [|tauto].
           subst c. discriminate Eb.
Qed.

Lemma aggregated_no_nl (lines : list (string * string)) :
  List.Forall (fun s => count_nl s = 0) (aggregated lines).
Proof.
  unfold aggregated. induction lines as [|[k txt] lines IH]; simpl; [constructor|].
  apply List.Forall_app; split; [|exact IH].
  destruct (String.eqb txt EmptyString); [constructor|].
  apply Forall_rev. apply (splitlines_from_no_nl (length (list_ascii_of_string txt))); [lia|simpl; tauto].
Qed.

Lemma count_nl_join (l : list string) :
  List.Forall (fun s => count_nl s = 0) l -> count_nl (join_nl l) = length l - 1.
Proof.
  induction l as [|x l IH]; intros H; [reflexivity|].
  inversion H as [|? ? Hx Hl]; subst.
  destruct l as [|y l]; [simpl; lia|].
  change (join_nl (x :: y :: l)) with (x ++ String "010" (join_nl (y :: l)))%string.
  rewrite count_nl_app, Hx.
  change (count_nl (String "010" (join_nl (y :: l)))) with (1 + count_nl (join_nl (y :: l))).
  rewrite IH by exact Hl. simpl. lia.
Qed.

(** The [recent_excerpt] that [coach_suggest] passes to the model has
    at most 120 lines: it holds at most 119 newline characters, whatever
    the entries' texts. *)
Theorem recent_excerpt_at_most_120_lines (lines : list (string * string)) :
  count_nl (recent_excerpt lines) <= 119.
Proof.
  unfold recent_excerpt.
  rewrite count_nl_join.
  - rewrite length_firstn. lia.
  - apply Breakdown.Forall_firstn', aggregated_no_nl.
Qed.

End SuggestFacts.

Module EntryFacts.
Import Entries.

Lemma find_map_same {A} (p : A -> bool) (f : A -> A) (l : list A) :
  (forall x, p (f x) = p x) -> find p (map f l) = option_map f (find p l).
Proof.
  intros Hf. induction l as [|x l IH]; simpl; [reflexivity|].
  rewrite Hf. destruct (p x); [reflexivity|exact IH].
Qed.

Lemma find_snoc_none {A} (p : A -> bool) (l : list A) (x : A) :
  find p l = None -> find p (l ++ [x]) = if p x then Some x else None.
Proof.
  induction l as [|y l IH]; simpl; [reflexivity|].
  destruct (p y); [discriminate|exact IH].
Qed.

(** For a request handled on its own whose body gives [text] as a
    string and [date] as a string or not at all ([cr_date]),
    [create_entry] with a text that is empty after stripping changes
    nothing.  Otherwise, afterwards the entry of that journal, user and
    date holds the line ["[time] text"] when there was no entry or its
    text was empty, and the old text, a newline and the line otherwise.
    A [date] that is a JSON object would be read by [find_one] as a query
    and is not covered. *)
Theorem create_entry_line (db : entries_db) (r : create_req) (sd stime : string) :
  let text := Py.strip (cr_text r) in
  let date := match cr_date r with Some d => d | None => sd end in
  let line := ("[" ++ match cr_time r with Some t => t | None => stime end ++ "] " ++ text)%string in
  if String.eqb text EmptyString then create_entry db r sd stime = db
  else exists e,
    find_entry (create_entry db r sd stime) (cr_journal r) (cr_user r) date = Some e /\
    e_text e = match find_entry db (cr_journal r) (cr_user r) date with
               | Some e0 => if String.eqb (e_text e0) EmptyString then line
                            else (e_text e0 ++ String "010" line)%string
               | None => line
               end.
Proof.
  cbv zeta. unfold create_entry, create_lookup.
  destruct (String.eqb (Py.strip (cr_text r)) EmptyString); [reflexivity|].
  unfold create_write; simpl.
  destruct (find_entry db (cr_journal r) (cr_user r) _) as [e0|] eqn:F.
  - unfold find_entry, set_text in *; simpl.
    rewrite find_map_same.
    + rewrite F. simpl. rewrite Nat.eqb_refl. eexists; split; reflexivity.
    + intros x. destruct (Nat.eqb (e_id x) (e_id e0)); reflexivity.
  - unfold find_entry in *; simpl. rewrite find_snoc_none by exact F.
    unfold matches; simpl. rewrite !String.eqb_refl. simpl.
    eexists; split; reflexivity.
Qed.

(** [update_entry] and [delete_entry] called with user [user] leave the
    entries of every other user unchanged. *)
Theorem update_delete_keep_other_users (db : entries_db) (id : nat) (user text u' : string)
    (Hu : u' <> user) :
  List.filter (fun e => String.eqb (e_user e) u') (docs (update_entry db id user text)) =
  List.filter (fun e => String.eqb (e_user e) u') (docs db) /\
  List.filter (fun e => String.eqb (e_user e) u') (docs (delete_entry db id user)) =
  List.filter (fun e => String.eqb (e_user e) u') (docs db).
Proof.
  assert (forall e, e_user e = user -> String.eqb (e_user e) u' = false) as Hne.
  { intros e ->. apply String.eqb_neq. congruence. }
  split.
  - unfold update_entry. destruct (String.eqb (Py.strip text) EmptyString); [reflexivity|].
    simpl. induction (docs db) as [|e l IH]; simpl; [reflexivity|].
    destruct (Nat.eqb (e_id e) id && String.eqb (e_user e) user) eqn:E.
    + apply andb_prop in E as [_ E]. apply String.eqb_eq in E.
      simpl. rewrite (Hne e E). exact IH.
    + destruct (String.eqb (e_user e) u'); [f_equal|]; exact IH.
  - unfold delete_entry; simpl. induction (docs db) as [|e l IH]; simpl; [reflexivity|].
    destruct (Nat.eqb (e_id e) id && String.eqb (e_user e) user) eqn:E.
    + apply andb_prop in E as [_ E]. apply String.eqb_eq in E. rewrite (Hne e E). reflexivity.
    + simpl. destruct (String.eqb (e_user e) u'); [f_equal|]; exact IH.
Qed.

End EntryFacts.

Module CacheKeyFacts.
Import AI.

Lemma cache_hit_store (key : string) (v : string) (t1 t2 ttl : Z) (st : ai_state) :
  (t2 < t1 + ttl)%Z ->
  cache_hit (cache_store key ((t1 + ttl)%Z, v) st) key t2 = Some v.
Proof.
  intros H. unfold cache_hit, cache_store; simpl.
  rewrite lookup_insert_eq. apply Z.ltb_lt in H. rewrite H. reflexivity.
Qed.

(** The cache key of [get_coaching_suggestion] hashes the plain
    concatenation of the fields: two contexts whose concatenations are
    equal (goal "ab" with entries "c", goal "a" with entries "bc") share
    the cached suggestion within the TTL, with no new model call. *)
Theorem coaching_cache_key_collision (respond : nat -> call -> string)
    (sha256_hex : string -> string) (ttl : Z) (ctx1 ctx2 : CoachingContext)
    (t1 t2 : Z) (st : ai_state)
    (Hcat : (or_empty (goal ctx1) ++ recent_entries ctx1 ++ or_empty (journal_name ctx1)
             ++ Py.str_Z (max_tokens ctx1))%string =
            (or_empty (goal ctx2) ++ recent_entries ctx2 ++ or_empty (journal_name ctx2)
             ++ Py.str_Z (max_tokens ctx2))%string)
    (Hmiss : cache_hit st (cache_key sha256_hex ctx1) t1 = None)
    (Ht : (t2 < t1 + ttl)%Z) :
  let '(s1, st1) := get_coaching_suggestion respond sha256_hex ttl ctx1 t1 st in
  get_coaching_suggestion respond sha256_hex ttl ctx2 t2 st1 = (s1, st1).
Proof.
  unfold get_coaching_suggestion at 1. rewrite Hmiss.
  unfold call_model. cbv zeta.
  unfold get_coaching_suggestion.
  assert (cache_key sha256_hex ctx2 = cache_key sha256_hex ctx1) as ->
    by (unfold cache_key; rewrite Hcat; reflexivity).
  rewrite cache_hit_store by exact Ht. reflexivity.
Qed.

(** The cache key of [get_entry_evaluation] leaves out the journal name:
    within the TTL after a miss, a call that differs only in the journal
    name returns the cached evaluation with no new model call. *)
Theorem entry_evaluation_ignores_journal_name (respond : nat -> call -> string)
    (sha256_hex : string -> string) (ttl : Z) (g : option string) (entry_text : string)
    (jname1 jname2 : option string) (date_str : string) (t1 t2 : Z) (st : ai_state)
    (Hmiss : cache_hit st ("eval:" ++ sha256_hex (stripped_or g "(No explicit goal)" ++
                             strip_or entry_text "(No content recorded)" ++ date_str))%string
                       t1 = None)
    (Ht : (t2 < t1 + ttl)%Z) :
  let '(v1, st1) := get_entry_evaluation respond sha256_hex ttl g entry_text jname1 date_str t1 st in
  get_entry_evaluation respond sha256_hex ttl g entry_text jname2 date_str t2 st1 = (v1, st1).
Proof.
  unfold get_entry_evaluation at 1. cbv zeta. rewrite Hmiss.
  unfold call_model.
  unfold get_entry_evaluation. cbv zeta.
  rewrite cache_hit_store by exact Ht. reflexivity.
Qed.

End CacheKeyFacts.

Module ShapeFacts.
Import Json AI Handlers.

Lemma good_id_list (s : string) : good_id s = good_list (list_ascii_of_string s).
Proof. reflexivity. Qed.

Lemma take_list (n : nat) (s : string) :
  list_ascii_of_string (Py.take n s) = firstn n (list_ascii_of_string s).
Proof.
  unfold Py.take. revert n. induction s as [|c s IH]; intros [|n]; simpl; try reflexivity.
  f_equal. apply IH.
Qed.

Lemma take_length (n : nat) (s : string) : (String.length (Py.take n s) <= n)%nat.
Proof.
  unfold Py.take. revert n. induction s as [|c s IH]; intros [|n]; simpl; try lia.
  specialize (IH n). lia.
Qed.

Lemma take_nonempty (n : nat) (s : string) :
  s <> EmptyString -> String.eqb (Py.take (S n) s) EmptyString = false.
Proof. destruct s; [congruence|reflexivity]. Qed.

Lemma lstrip_suffix (p : ascii -> bool) (l : list ascii) :
  exists pre, l = pre ++ Py.lstrip_by p l.
Proof.
  induction l as [|c l IH]; simpl; [exists []; reflexivity|].
  destruct (p c).
  - destruct IH as [pre E]. exists (c :: pre). simpl. f_equal. exact E.
  - exists []. reflexivity.
Qed.

Lemma lstrip_head (l : list ascii) :
  match Py.lstrip_by (fun c => Ascii.eqb c "-"%char) l with
  | [] => True
  | c :: _ => Ascii.eqb c "-"%char = false
  end.
Proof.
  induction l as [|c l IH]; simpl; [exact I|].
  destruct (Ascii.eqb c "-"%char) eqn:E; [exact IH|exact E].
Qed.

Lemma forallb_firstn {A} (f : A -> bool) n (l : list A) :
  forallb f l = true -> forallb f (firstn n l) = true.
Proof.
  revert l; induction n as [|n IH]; intros [|x l] H; simpl in *; try reflexivity.
  apply andb_prop in H as [H1 H2]. rewrite H1. simpl. apply IH, H2.
Qed.

Lemma forallb_lstrip (p f : ascii -> bool) (l : list ascii) :
  forallb f l = true -> forallb f (Py.lstrip_by p l) = true.
Proof.
  intros H. destruct (lstrip_suffix p l) as [pre E].
  rewrite E, forallb_app in H. apply andb_prop in H as [_ H]. exact H.
Qed.

Lemma forallb_rev {A} (f : A -> bool) (l : list A) : forallb f (rev l) = forallb f l.
Proof.
  induction l as [|x l IH]; simpl; [reflexivity|].
  rewrite forallb_app, IH. simpl. rewrite andb_true_r, andb_comm. reflexivity.
Qed.

Lemma clean_id_good (s : string) :
  String.eqb (clean_id s) EmptyString = false -> good_id (clean_id s) = true.
Proof.
  unfold clean_id. rewrite good_id_list, take_list. unfold Py.strip_by.
  rewrite list_ascii_of_string_of_list_ascii, list_ascii_of_string_of_list_ascii.
  set (m := map (fun c => if id_char c then c else "-"%char) (list_ascii_of_string (Py.lower s))).
  assert (forallb id_char m = true) as Hm.
  { subst m. apply forallb_forall. intros c Hc. apply in_map_iff in Hc as (x & <- & _).
    destruct (id_char x) eqn:E; [exact E|reflexivity]. }
  set (k := Py.lstrip_by (fun c => Ascii.eqb c "-"%char) m).
  pose proof (lstrip_head m) as Hh. fold k in Hh.
  assert (forallb id_char k = true) as Hk by (apply forallb_lstrip, Hm).
  set (q := rev (Py.lstrip_by (fun c => Ascii.eqb c "-"%char) (rev k))).
  destruct (lstrip_suffix (fun c => Ascii.eqb c "-"%char) (rev k)) as [pre E].
  assert (k = q ++ rev pre) as Ek.
  { subst q. rewrite <- rev_app_distr, <- E, rev_involutive. reflexivity. }
  assert (forallb id_char q = true) as Hq.
  { rewrite Ek, forallb_app in Hk. apply andb_prop in Hk as [H _]. exact H. }
  intros Hne.
  destruct q as [|c q'].
  - exfalso. simpl in Hne. discriminate.
  - rewrite Ek in Hh. simpl in Hh. simpl firstn. unfold good_list.
    rewrite Hh. simpl. apply forallb_firstn with (n := 48%nat) in Hq. exact Hq.
Qed.

Lemma list_ascii_append (a b : string) :
  list_ascii_of_string (a ++ b) = list_ascii_of_string a ++ list_ascii_of_string b.
Proof.
  induction a as [|c a IH]; [reflexivity|].
  change (c :: list_ascii_of_string (a ++ b) = c :: (list_ascii_of_string a ++ list_ascii_of_string b)).
  rewrite IH. reflexivity.
Qed.

Lemma digits_rev_isdigit (f n : nat) : forallb Py.isdigit (Py.digits_rev f n) = true.
Proof.
  revert n. induction f as [|f IH]; intros n; [reflexivity|]. cbn [Py.digits_rev].
  assert (Py.isdigit (ascii_of_nat (48 + n mod 10)) = true) as Hd.
  { unfold Py.isdigit. pose proof (Nat.mod_upper_bound n 10 ltac:(lia)).
    rewrite nat_ascii_embedding by lia.
    apply andb_true_iff; split; apply Nat.leb_le; lia. }
  destruct (n <? 10)%nat; cbn [forallb]; rewrite Hd; [reflexivity|]. apply IH.
Qed.

Lemma step_label_good (n : nat) : good_id (step_label n) = true.
Proof.
  unfold step_label. rewrite good_id_list, list_ascii_append.
  unfold Py.str_nat. rewrite list_ascii_of_string_of_list_ascii.
  assert (forallb id_char (rev (Py.digits_rev (S n) n)) = true) as H.
  { rewrite forallb_rev, forallb_forall. intros c Hc.
    pose proof (digits_rev_isdigit (S n) n) as Hd. rewrite forallb_forall in Hd.
    unfold id_char. rewrite (Hd c Hc), orb_true_r. reflexivity. }
  change (list_ascii_of_string "step-") with ["s"; "t"; "e"; "p"; "-"]%char.
  unfold good_list. cbn [app forallb]. rewrite H. reflexivity.
Qed.

Lemma good_id_nonempty (s : string) : good_id s = true -> String.eqb s EmptyString = false.
Proof. destruct s; [discriminate|reflexivity]. Qed.

Lemma sid_good (x : string) (n : nat) :
  good_id (if String.eqb (clean_id x) EmptyString then step_label n else clean_id x) = true.
Proof.
  destruct (String.eqb (clean_id x) EmptyString) eqn:E;
    [apply step_label_good|apply clean_id_good, E].
Qed.

Ltac solve_shape :=
  unfold step_shape; cbn [s_id s_title s_description s_expected_outcome];
  rewrite (proj2 (Nat.leb_le _ _) (take_length 220 _)),
          (proj2 (Nat.leb_le _ _) (take_length 160 _));
  repeat match goal with
         | E : (?x =? EmptyString)%string = false |- context [good_id ?x] =>
             rewrite (clean_id_good _ E)
         | E : (?x =? EmptyString)%string = _ |- context [(?x =? EmptyString)%string] =>
             rewrite E
         | |- context [good_id (step_label ?n)] => rewrite (step_label_good n)
         end;
  try reflexivity.

Lemma coerce_first_shape (idx : nat) (j : json) (s : step) :
  coerce_first idx j = Ok (Some s) -> step_shape s = true.
Proof.
  intros H. destruct j as [| | | | |l|kv]; simpl in H; try discriminate.
  unfold bind in H. case_res; injection H as <-; solve_shape.
Qed.

Lemma backfill_one_shape (st : json) (pre : list step) (s : step) :
  backfill_one st pre = Ok (Some s) -> step_shape s = true.
Proof.
  intros H. unfold backfill_one in H.
  destruct st as [| | | | |l|kv]; simpl in H; try discriminate.
  unfold bind in H. case_res; injection H as <-; solve_shape;
    match goal with E : (?t =? EmptyString)%string = false |- context [Py.take 80 ?t] =>
      rewrite (take_nonempty 79 t) by (apply String.eqb_neq; exact E); reflexivity end.
Qed.
Lemma coerce_all_shape (l : list json) (idx : nat) (r : list step) :
  coerce_all l idx = Ok r -> Forall (fun s => step_shape s = true) r.
Proof.
  revert idx r. induction l as [|j l IH]; intros idx r H; simpl in H.
  - injection H as <-. constructor.
  - unfold bind in H.
    destruct (coerce_first idx j) as [o|e] eqn:E; [|discriminate].
    destruct (coerce_all l (S idx)) as [rest|e] eqn:E0; [|discriminate].
    injection H as <-. pose proof (IH _ _ E0) as Hr.
    destruct o as [s|]; [|exact Hr].
    constructor; [exact (coerce_first_shape _ _ _ E)|exact Hr].
Qed.

Lemma first_pass_shape jl raw :
  Forall (fun s => step_shape s = true) (catch (first_pass jl raw) []).
Proof.
  unfold first_pass.
  destruct (jl (extract_text raw)) as [d|]; simpl; [|constructor].
  destruct (steps_list d) as [l|]; simpl; [|constructor].
  destruct (coerce_all l 1) as [r|e] eqn:E; simpl; [|constructor].
  exact (coerce_all_shape _ _ _ E).
Qed.

Lemma backfill_loop_shape (bf : list json) (pre : list step) :
  Forall (fun s => step_shape s = true) pre ->
  Forall (fun s => step_shape s = true) (backfill_loop bf pre).
Proof.
  revert pre. induction bf as [|st bf IH]; intros pre H; simpl; [exact H|].
  destruct (backfill_one st pre) as [[s|]|e] eqn:E; [| apply IH, H | exact H].
  apply IH. apply Breakdown.Forall_app'; [exact H|].
  constructor; [exact (backfill_one_shape _ _ _ E)|constructor].
Qed.

(** Every step [get_goal_breakdown] returns has a non-empty id over
    [a-z0-9-] not starting with a hyphen, a non-empty title, a description
    of at most 220 characters and an expected outcome of at most 160. *)
Theorem get_goal_breakdown_step_shape jl r goal mt st :
  Forall (fun s => step_shape s = true) (ok_list (fst (get_goal_breakdown jl r goal mt st))).
Proof.
  destruct (String.eqb (Py.strip goal) EmptyString) eqn:Hg.
  - unfold get_goal_breakdown. rewrite Hg. constructor.
  - rewrite Breakdown.get_goal_breakdown_nonblank by exact Hg. simpl.
    apply Forall_renumber.
    { intros s s' Hf. unfold step_shape, fields in *.
      injection Hf as -> -> -> ->. exact (fun H => H). }
    apply Breakdown.Forall_firstn'.
    rewrite Breakdown.breakdown_steps_nonblank by exact Hg. cbv zeta.
    assert (Forall (fun s => step_shape s = true) (first_steps jl r goal mt st)) as Hf.
    { apply Breakdown.Forall_sort_by_order, first_pass_shape. }
    destruct (length _ <? 8)%nat; simpl; [apply backfill_loop_shape|]; exact Hf.
Qed.

End ShapeFacts.

Module NormFacts.
Import Json Norm.

Lemma has_key_get (kv : dict) (k : string) :
  has_key kv k = match get kv k with Some _ => true | None => false end.
Proof.
  induction kv as [|[k' v] kv IH]; simpl; [reflexivity|].
  rewrite IH. destruct (get kv k); [apply orb_true_r|]. rewrite orb_false_r. 
  destruct (String.eqb k' k); reflexivity.
Qed.

Lemma get_map_set_other (kv : dict) (k k' : string) (v : json) :
  k' <> k ->
  get (map (fun '(k0, w) => if String.eqb k0 k then (k0, v) else (k0, w)) kv) k' = get kv k'.
Proof.
  intros Hne. induction kv as [|[k0 w] kv IH]; simpl; [reflexivity|].
  destruct (String.eqb k0 k) eqn:E; simpl; rewrite IH; [|reflexivity].
  apply String.eqb_eq in E; subst k0.
  destruct (String.eqb k k') eqn:E'; [apply String.eqb_eq in E'; congruence|].
  reflexivity.
Qed.

Lemma get_snoc_other (kv : dict) (k k' : string) (v : json) :
  k' <> k -> get (kv ++ [(k, v)]) k' = get kv k'.
Proof.
  intros Hne. rewrite Breakdown.get_app. simpl.
  destruct (String.eqb k k') eqn:E; [apply String.eqb_eq in E; congruence|reflexivity].
Qed.

Lemma get_dict_set_other (kv : dict) (k k' : string) (v : json) :
  k' <> k -> get (dict_set kv k v) k' = get kv k'.
Proof.
  intros Hne. unfold dict_set. destruct (has_key kv k).
  - apply get_map_set_other, Hne.
  - apply get_snoc_other, Hne.
Qed.

Lemma renumber_dicts_fields (i : Z) (ds : list dict) (n : nat) (d d' : dict) :
  nth_error ds n = Some d -> nth_error (renumber_dicts i ds) n = Some d' ->
  get d' "order" = Some (JNum (i + Z.of_nat n)) /\
  get d' "completed" = Some (match get d "completed" with Some v => v | None => JBool false end) /\
  (forall k, k <> "order"%string -> k <> "completed"%string -> get d' k = get d k).
Proof.
  revert i n. induction ds as [|kv ds IH]; intros i [|n] H H'; simpl in *; try discriminate.
  - injection H as <-. injection H' as <-.
    assert ("completed" <> "order")%string as Hco by discriminate.
    rewrite has_key_get, get_dict_set_other by exact Hco.
    destruct (get kv "completed") as [v|] eqn:Ec.
    + rewrite Breakdown.get_dict_set, get_dict_set_other, Ec by exact Hco.
      split; [f_equal; f_equal; lia|]. split; [reflexivity|].
      intros k Hk1 Hk2. apply get_dict_set_other, Hk1.
    + rewrite get_snoc_other, Breakdown.get_dict_set by discriminate.
      split; [f_equal; f_equal; lia|].
      split; [rewrite Breakdown.get_app; reflexivity|].
      intros k Hk1 Hk2. rewrite get_snoc_other by exact Hk2.
      apply get_dict_set_other, Hk1.
  - destruct (IH (i + 1)%Z n H H') as (H1 & H2 & H3). split; [|split; assumption].
    rewrite H1. f_equal. f_equal. lia.
Qed.

(** [_normalize_steps] keeps the first 8 dicts of the sorted list; the
    n-th result (from 0) has [order] [n + 1], keeps its [completed] value
    or gets [False], and has every other key unchanged. *)
Theorem normalize_steps_fields (sort_other : list dict -> list dict) (steps : json) :
  let ds := firstn 8 (normalize_sorted sort_other steps) in
  length (_normalize_steps sort_other steps) = length ds /\
  forall n d d', nth_error ds n = Some d ->
    nth_error (_normalize_steps sort_other steps) n = Some d' ->
    get d' "order" = Some (JNum (1 + Z.of_nat n)) /\
    get d' "completed" = Some (match get d "completed" with Some v => v | None => JBool false end) /\
    (forall k, k <> "order"%string -> k <> "completed"%string -> get d' k = get d k).
Proof.
  cbv zeta. unfold _normalize_steps. split.
  - apply Breakdown.renumber_dicts_length.
  - intros n d d'. apply renumber_dicts_fields.
Qed.

Lemma dicts_map_JObj (ds : list dict) : dicts (map JObj ds) = ds.
Proof. induction ds as [|d ds IH]; simpl; [reflexivity|]. rewrite IH. reflexivity. Qed.

Lemma orders_keys (l : list dict) (i : Z) :
  map (fun kv => get kv "order") l = map (fun z => Some (JNum z)) (zrange i (length l)) ->
  map key_z l = zrange i (length l) /\ forallb int_keyed l = true.
Proof.
  revert i. induction l as [|kv l IH]; intros i H; cbn [map forallb length zrange] in *;
    [split; reflexivity|].
  injection H as H1 H2. destruct (IH _ H2) as [E1 E2].
  rewrite E1, E2. unfold key_z, int_keyed, order_key. rewrite H1. split; reflexivity.
Qed.

Lemma zrange_sorted {A} (key : A -> Z) (l : list A) (i : Z) :
  map key l = zrange i (length l) -> Sorted (fun a b => (key a <= key b)%Z) l.
Proof.
  revert i. induction l as [|x l IH]; intros i H; simpl in *; [constructor|].
  injection H as H1 H2. constructor; [exact (IH _ H2)|].
  destruct l as [|y l]; constructor. simpl in H2. injection H2 as H3 _. lia.
Qed.

Lemma sort_by_sorted_id {A} (key : A -> Z) (l : list A) :
  Sorted (fun a b => (key a <= key b)%Z) l -> KeySort.sort_by key l = l.
Proof.
  induction 1 as [|x l Hs IH Hd]; simpl; [reflexivity|]. rewrite IH.
  destruct l as [|y l]; [reflexivity|]. simpl.
  inversion Hd as [|? ? Hxy]; subst. apply Z.leb_le in Hxy. rewrite Hxy. reflexivity.
Qed.

Lemma dict_set_binds (kv : dict) (k : string) (v : json) :
  Forall (fun '(k', w) => String.eqb k' k = true -> w = v) (dict_set kv k v).
Proof.
  unfold dict_set. destruct (has_key kv k) eqn:H.
  - apply List.Forall_forall. intros [k' w] Hin. apply in_map_iff in Hin as ([k0 w0] & E & _).
    destruct (String.eqb k0 k) eqn:E0; injection E as <- <-; [reflexivity|congruence].
  - apply Breakdown.Forall_app'; [|constructor; [intros _; reflexivity|constructor]].
    apply List.Forall_forall. intros [k' w] Hin Heq.
    assert (has_key kv k = true) as T.
    { apply existsb_exists. exists (k', w). split; [exact Hin|exact Heq]. }
    congruence.
Qed.

Lemma dict_set_id (kv : dict) (k : string) (v : json) :
  has_key kv k = true -> Forall (fun '(k', w) => String.eqb k' k = true -> w = v) kv ->
  dict_set kv k v = kv.
Proof.
  intros Hk Hf. unfold dict_set. rewrite Hk. clear Hk.
  induction Hf as [|[k' w] kv Hx Hf IH]; simpl; [reflexivity|].
  rewrite IH. destruct (String.eqb k' k) eqn:E; [rewrite (Hx eq_refl)|]; reflexivity.
Qed.

Lemma has_key_app (a b : dict) (k : string) : has_key (a ++ b) k = has_key a k || has_key b k.
Proof. unfold has_key. apply existsb_app. Qed.

Lemma has_key_dict_set (kv : dict) (k : string) (v : json) : has_key (dict_set kv k v) k = true.
Proof. rewrite has_key_get, Breakdown.get_dict_set. reflexivity. Qed.

Lemma renumber_dicts_idem (i : Z) (ds : list dict) :
  renumber_dicts i (renumber_dicts i ds) = renumber_dicts i ds.
Proof.
  revert i. induction ds as [|kv ds IH]; intros i; simpl; [reflexivity|].
  rewrite IH. f_equal.
  set (kv1 := dict_set kv "order" (JNum i)).
  set (kv2 := if has_key kv1 "completed" then kv1 else kv1 ++ [("completed", JBool false)]).
  assert (has_key kv2 "completed" = true) as Hc.
  { subst kv2. destruct (has_key kv1 "completed") eqn:E; [exact E|].
    rewrite has_key_app. simpl. apply orb_true_r. }
  assert (dict_set kv2 "order" (JNum i) = kv2) as Ho.
  { apply dict_set_id.
    - subst kv2. destruct (has_key kv1 "completed"); [apply has_key_dict_set|].
      rewrite has_key_app. unfold kv1. rewrite has_key_dict_set. reflexivity.
    - subst kv2. destruct (has_key kv1 "completed"); [apply dict_set_binds|].
      apply Breakdown.Forall_app'; [apply dict_set_binds|].
      constructor; [discriminate|constructor]. }
  rewrite Ho, Hc. reflexivity.
Qed.

(** [_normalize_steps] is idempotent: normalising its result again
    gives the same list. *)
Theorem normalize_steps_idempotent (sort_other : list dict -> list dict) (steps : json) :
  _normalize_steps sort_other (JArr (map JObj (_normalize_steps sort_other steps))) =
  _normalize_steps sort_other steps.
Proof.
  set (N := _normalize_steps sort_other steps).
  assert (length N <= 8)%nat as Hlen.
  { subst N. unfold _normalize_steps. rewrite Breakdown.renumber_dicts_length, length_firstn. lia. }
  assert (renumber_dicts 1 N = N) as Hid.
  { subst N. unfold _normalize_steps. apply renumber_dicts_idem. }
  pose proof (Breakdown.renumber_dicts_orders 1 (firstn 8 (normalize_sorted sort_other steps))) as Ho.
  rewrite <- (Breakdown.renumber_dicts_length 1) in Ho. fold N in Ho.
  destruct (orders_keys N 1 Ho) as [Hk Hi].
  unfold _normalize_steps at 1, normalize_sorted.
  rewrite dicts_map_JObj, Hi, sort_by_sorted_id by exact (zrange_sorted _ _ _ Hk).
  rewrite firstn_all2 by exact Hlen. exact Hid.
Qed.

End NormFacts.

Module CoachFacts.
Import Json AI Handlers.

Lemma renumber_dicts_step_dicts (i : Z) (L : list step) :
  map s_order L = zrange i (length L) ->
  Norm.renumber_dicts i (map step_dict L) =
  map (fun s => step_dict s ++ [("completed", JBool false)]) L.
Proof.
  revert i. induction L as [|s L IH]; intros i H; [reflexivity|].
  cbn [map length zrange] in H. injection H as H1 H2.
  cbn [map Norm.renumber_dicts]. rewrite (IH _ H2). f_equal.
  unfold step_dict. rewrite H1. reflexivity.
Qed.

Lemma step_dicts_orders (L : list step) :
  map (fun kv => get kv "order") (map step_dict L) = map (fun z => Some (JNum z)) (map s_order L).
Proof. induction L as [|s L IH]; simpl; [reflexivity|]. rewrite IH. reflexivity. Qed.

Lemma normalize_renumbered_steps (sort_other : list Norm.dict -> list Norm.dict) (l0 : list step) :
  (length l0 <= 8)%nat ->
  Norm._normalize_steps sort_other (JArr (map (fun s => JObj (step_dict s)) (renumber 1 l0))) =
  map (fun s => step_dict s ++ [("completed", JBool false)]) (renumber 1 l0).
Proof.
  intros Hlen.
  pose proof (renumber_orders 1 l0) as Ho.
  assert (length (renumber 1 l0) = length l0) as HL.
  { clear Ho. revert Hlen. generalize 1%Z. induction l0; intros z Hl; simpl in *; [reflexivity|].
    f_equal. apply IHl0. lia. }
  set (L := renumber 1 l0) in *.
  assert (map s_order L = zrange 1 (length L)) as HoL by (rewrite HL; exact Ho).
  unfold Norm._normalize_steps, Norm.normalize_sorted.
  rewrite <- (map_map step_dict JObj), NormFacts.dicts_map_JObj.
  pose proof (step_dicts_orders L) as Hg. rewrite HoL in Hg.
  rewrite <- (length_map step_dict L) in Hg.
  destruct (NormFacts.orders_keys _ _ Hg) as [Hk Hi].
  rewrite Hi, NormFacts.sort_by_sorted_id by exact (NormFacts.zrange_sorted _ _ _ Hk).
  rewrite firstn_all2 by (rewrite length_map; lia).
  apply renumber_dicts_step_dicts, HoL.
Qed.

(** [coach_breakdown] returns the steps of [get_goal_breakdown] on the
    journal's goal (an empty goal when it is missing) as the dicts
    [get_goal_breakdown] builds, in the same order, each with
    ["completed": False] added; [_normalize_steps] changes nothing else. *)
Theorem coach_breakdown_steps jl r sort_other goal st :
  coach_breakdown jl r sort_other goal st =
  let '(res, st1) := get_goal_breakdown jl r
                       (match goal with Some x => x | None => EmptyString end) 900 st in
  (match res with
   | Ok l => Ok (map (fun s => step_dict s ++ [("completed", JBool false)]) l)
   | Raise e => Raise e
   end, st1).
Proof.
  unfold coach_breakdown.
  replace (match goal with Some x => if String.eqb x EmptyString then EmptyString else x
                         | None => EmptyString end)
    with (match goal with Some x => x | None => EmptyString end)
    by (destruct goal as [x|]; [destruct (String.eqb_spec x EmptyString); congruence|reflexivity]).
  set (g := match goal with Some x => x | None => EmptyString end).
  destruct (String.eqb (Py.strip g) EmptyString) eqn:Eb.
  - unfold get_goal_breakdown. rewrite Eb. reflexivity.
  - rewrite (Breakdown.get_goal_breakdown_nonblank jl r g 900 st Eb).
    rewrite normalize_renumbered_steps; [reflexivity|].
    rewrite length_firstn. lia.
Qed.

End CoachFacts.

(** ** The theorems at concrete inputs *)

Module Witnesses.
Import Json AI Vocab.

Lemma get_goal_breakdown_blank_goal_witness :
  get_goal_breakdown Json.loads_subset (Runs.model EmptyString EmptyString)
    "  " 900 Runs.empty_state = (Ok [], Runs.empty_state).
Proof.
  apply (Breakdown.get_goal_breakdown_blank_goal Json.loads_subset
           (Runs.model EmptyString EmptyString) "  " 900 Runs.empty_state).
  vm_compute. reflexivity.
Defined.

Lemma get_goal_breakdown_never_raises_witness :
  first_steps (fun _ => None) (Runs.model EmptyString EmptyString)
    "Get fit" 900 Runs.empty_state = [].
Proof.
  refine (proj1 (proj2 (Breakdown.get_goal_breakdown_never_raises (fun _ => None)
            (Runs.model EmptyString EmptyString) "Get fit" 900 Runs.empty_state) _ _ _)).
  - intros s kv H. discriminate H.
  - intros H. vm_compute in H. discriminate H.
  - right. left. reflexivity.
Defined.

Lemma get_goal_breakdown_backfill_witness :
  let jl := Json.loads_subset in
  let r := Runs.model (Runs.jtext "{`steps`: [{`title`: `Run`}]}")
                      (Runs.jtext "{`steps`: [{`title`: `Swim`}]}") in
  calls (snd (get_goal_breakdown jl r "Get fit" 900 Runs.empty_state)) =
    calls Runs.empty_state ++
      [plan_call "Get fit" 900;
       backfill_call "Get fit" (first_steps jl r "Get fit" 900 Runs.empty_state)].
Proof.
  cbv zeta.
  refine (proj1 (Breakdown.get_goal_breakdown_backfill Json.loads_subset
    (Runs.model (Runs.jtext "{`steps`: [{`title`: `Run`}]}")
                (Runs.jtext "{`steps`: [{`title`: `Swim`}]}"))
    "Get fit" 900 Runs.empty_state _ _)).
  - intros H. vm_compute in H. discriminate H.
  - apply Nat.ltb_lt. vm_compute. reflexivity.
Defined.

Lemma get_goal_breakdown_backfill_dedup_witness :
  let jl := Json.loads_subset in
  let r := Runs.model (Runs.jtext "{`steps`: [{`title`: `Run`}]}")
                      (Runs.jtext "{`steps`: [{`title`: `run`}, {`title`: `Swim`}]}") in
  exists bf added,
    Appended bf (first_steps jl r "Get fit" 900 Runs.empty_state) added /\
    fst (get_goal_breakdown jl r "Get fit" 900 Runs.empty_state) =
      Ok (renumber 1 (firstn 8 (first_steps jl r "Get fit" 900 Runs.empty_state ++ added))).
Proof.
  cbv zeta.
  apply (Breakdown.get_goal_breakdown_backfill_dedup Json.loads_subset
    (Runs.model (Runs.jtext "{`steps`: [{`title`: `Run`}]}")
                (Runs.jtext "{`steps`: [{`title`: `run`}, {`title`: `Swim`}]}"))
    "Get fit" 900 Runs.empty_state).
  intros H. vm_compute in H. discriminate H.
Defined.

Lemma get_goal_breakdown_and_normalize_order_witness :
  let steps := JArr [JObj [("title", JStr "b"); ("order", JNum 2)];
                     JObj [("title", JStr "a"); ("order", JNum 1)]] in
  Sorted (fun a b => (Norm.key_z a <= Norm.key_z b)%Z)
    (Norm.normalize_sorted (fun l => l) steps).
Proof.
  cbv zeta.
  refine (proj1 (proj2 (proj2 (proj2 (proj2 (Breakdown.get_goal_breakdown_and_normalize_order
    Json.loads_subset (Runs.model EmptyString EmptyString) "Get fit" 900 Runs.empty_state
    (fun l => l)
    (JArr [JObj [("title", JStr "b"); ("order", JNum 2)];
           JObj [("title", JStr "a"); ("order", JNum 1)]]))))) _)).
  vm_compute. reflexivity.
Defined.

Lemma coaching_suggestion_ttl_hit_witness :
  let ctx := mk_ctx (Some "Run a marathon") "[07:00:00] ran 5k" None 350 in
  let sha := fun _ : string =>
    "e3b0c44298fc1c149afbf4c8996fb92427ae41e4649b934ca495991b7852b855" in
  let r := fun (n : nat) (_ : call) => Py.str_nat n in
  let ops := [OpBreakdown "Get fit" 900;
              OpEvaluate None "[08:00:00] swam" None "2026-10-18" 300;
              OpSuggest (mk_ctx None "x" None 350) 400] in
  let first := get_coaching_suggestion r sha 600 ctx 0 Runs.empty_state in
  let st' := run_ops Json.loads_subset r sha 600 ops (snd first) in
  get_coaching_suggestion r sha 600 ctx 500 st' = (fst first, st').
Proof.
  cbv zeta.
  apply (CacheFacts.coaching_suggestion_ttl_hit Json.loads_subset
    (fun (n : nat) (_ : call) => Py.str_nat n)
    (fun _ : string =>
       "e3b0c44298fc1c149afbf4c8996fb92427ae41e4649b934ca495991b7852b855")
    600 (mk_ctx (Some "Run a marathon") "[07:00:00] ran 5k" None 350) 0 500
    [OpBreakdown "Get fit" 900;
     OpEvaluate None "[08:00:00] swam" None "2026-10-18" 300;
     OpSuggest (mk_ctx None "x" None 350) 400]
    Runs.empty_state).
  - intros x. reflexivity.
  - vm_compute. reflexivity.
  - repeat constructor; intros t Ht; simpl in Ht; [discriminate Ht| |]; injection Ht as <-; lia.
  - lia.
Defined.

Lemma coach_evaluate_entry_daily_witness :
  let evs := [Evals.mk_eval "j1" "u1" "2026-10-17" "old"] in
  let edb := {| Entries.docs := [Entries.mk_entry 0 "j1" "u1" "10/18/2026" "[07:00:00] ran 5k"];
                Entries.next_id := 1 |} in
  Evals.one_per_journal
    (snd (fst (Evals.coach_evaluate_entry (fun (n : nat) (_ : call) => Py.str_nat n)
                 (fun s => s) 600 evs edb Runs.empty_state
                 (Evals.mk_journal (Some "Run a marathon") (Some "Runs")) "j1" "u1"
                 (Evals.mk_today "2026-10-18" "10/18/2026" "10/18/2026") 0))).
Proof.
  cbv zeta.
  refine (proj1 (DbFacts.coach_evaluate_entry_daily (fun (n : nat) (_ : call) => Py.str_nat n)
    (fun s => s) 600 [Evals.mk_eval "j1" "u1" "2026-10-17" "old"]
    {| Entries.docs := [Entries.mk_entry 0 "j1" "u1" "10/18/2026" "[07:00:00] ran 5k"];
       Entries.next_id := 1 |}
    Runs.empty_state (Evals.mk_journal (Some "Run a marathon") (Some "Runs")) "j1" "u1"
    (Evals.mk_today "2026-10-18" "10/18/2026" "10/18/2026") 0 _)).
  intros j u. simpl. destruct (Evals.of_pair j u _); simpl; lia.
Defined.

End Witnesses.

(** ** The JSON decoder and the patterns on sample inputs *)

Module Examples.

Example loads_subset_ok :
  Json.loads_subset (Runs.jtext "{`steps`: [{`title`: `Run`, `order`: 2}, 3, true]}") =
  Some (Json.JObj [("steps", Json.JArr [Json.JObj [("title", Json.JStr "Run");
                                               ("order", Json.JNum 2)];
                                      Json.JNum 3; Json.JBool true])]).
Proof. vm_compute. reflexivity. Qed.

Example meta_set_goals : Meta._is_meta_goal_step "set smart goals for the week" = true.
Proof. vm_compute. reflexivity. Qed.
Example meta_plain : Meta._is_meta_goal_step "run 5 km three times" = false.
Proof. vm_compute. reflexivity. Qed.
Example meta_goalsx : Meta._is_meta_goal_step "set goalsx" = false.
Proof. vm_compute. reflexivity. Qed.
Example meta_action_plan : Meta._is_meta_goal_step "draft an action  plan " = true.
Proof. vm_compute. reflexivity. Qed.
Example meta_plan_your : Meta._is_meta_goal_step "plan  your steps" = true.
Proof. vm_compute. reflexivity. Qed.
Example meta_hyphen : Meta._is_meta_goal_step "set-goals x" = true.
Proof. vm_compute. reflexivity. Qed.
Example meta_reset : Meta._is_meta_goal_step "reset goals" = false.
Proof. vm_compute. reflexivity. Qed.
Example search_braces : Meta.plan_json_search "ok {a} and {b} end" = Some "{a} and {b}".
Proof. vm_compute. reflexivity. Qed.


End Examples.

(** ** Instances of the further properties *)

Module ExtraWitnesses.
Import Json AI.

Lemma page_created_at_stored_witness :
  let shown := Pages.page_created_at (Some "2025-01-01 10:00:00") "2025-01-02T00:00:00Z" in
  shown = (if Pages.has_char "Z"%char "2025-01-01 10:00:00" ||
              Pages.has_char "+"%char "2025-01-01 10:00:00" then "2025-01-01 10:00:00"
           else (Pages.replace_space "2025-01-01 10:00:00" ++ "Z")%string) /\
  Pages.has_char "Z"%char shown || Pages.has_char "+"%char shown = true /\
  Pages.normalize_created_at shown = shown.
Proof.
  apply (PageFacts.page_created_at_stored "2025-01-01 10:00:00" "2025-01-02T00:00:00Z").
  discriminate.
Defined.

Lemma get_journal_segment_routes_to_user_witness :
  Routes.dispatch "GET" ("/api/journal/" ++ "me") = Routes.Handled Routes.get_user_journal.
Proof.
  apply (RouteFacts.get_journal_segment_routes_to_user "me").
  - discriminate.
  - vm_compute. reflexivity.
Defined.



Lemma update_delete_keep_other_users_witness :
  let db := {| Entries.docs := [Entries.mk_entry 0 "j1" "u1" "10/18/2026" "a";
                                Entries.mk_entry 1 "j1" "u2" "10/18/2026" "b"];
               Entries.next_id := 2 |} in
  List.filter (fun e => String.eqb (Entries.e_user e) "u2")
    (Entries.docs (Entries.update_entry db 0 "u1" "c")) =
  List.filter (fun e => String.eqb (Entries.e_user e) "u2") (Entries.docs db) /\
  List.filter (fun e => String.eqb (Entries.e_user e) "u2")
    (Entries.docs (Entries.delete_entry db 0 "u1")) =
  List.filter (fun e => String.eqb (Entries.e_user e) "u2") (Entries.docs db).
Proof.
  cbv zeta.
  apply (EntryFacts.update_delete_keep_other_users
    {| Entries.docs := [Entries.mk_entry 0 "j1" "u1" "10/18/2026" "a";
                        Entries.mk_entry 1 "j1" "u2" "10/18/2026" "b"];
       Entries.next_id := 2 |} 0 "u1" "c" "u2").
  discriminate.
Defined.

Lemma coaching_cache_key_collision_witness :
  let r := fun (n : nat) (_ : call) => Py.str_nat n in
  let '(s1, st1) := get_coaching_suggestion r (fun s => s) 600
                      (mk_ctx (Some "ab") "c" None 350) 0 Runs.empty_state in
  get_coaching_suggestion r (fun s => s) 600 (mk_ctx (Some "a") "bc" None 350) 10 st1 =
  (s1, st1).
Proof.
  cbv zeta.
  apply (CacheKeyFacts.coaching_cache_key_collision (fun (n : nat) (_ : call) => Py.str_nat n)
    (fun s => s) 600 (mk_ctx (Some "ab") "c" None 350) (mk_ctx (Some "a") "bc" None 350)
    0 10 Runs.empty_state).
  - vm_compute. reflexivity.
  - vm_compute. reflexivity.
  - lia.
Defined.

Lemma entry_evaluation_ignores_journal_name_witness :
  let r := fun (n : nat) (_ : call) => Py.str_nat n in
  let '(v1, st1) := get_entry_evaluation r (fun s => s) 600 (Some "Run") "ran 5k"
                      (Some "Runs") "2026-10-18" 0 Runs.empty_state in
  get_entry_evaluation r (fun s => s) 600 (Some "Run") "ran 5k" None "2026-10-18" 10 st1 =
  (v1, st1).
Proof.
  cbv zeta.
  apply (CacheKeyFacts.entry_evaluation_ignores_journal_name
    (fun (n : nat) (_ : call) => Py.str_nat n) (fun s => s) 600 (Some "Run") "ran 5k"
    (Some "Runs") None "2026-10-18" 0 10 Runs.empty_state).
  - vm_compute. reflexivity.
  - lia.
Defined.

End ExtraWitnesses.
